(** * Content scheduler: next-run calculator, poller and run executor

    Shallow embedding of the scheduling control loop of the
    [ContentScheduler] component (functions [calculateNextRun],
    [checkSchedules], [generateScheduledContent]) together with the part of
    the ECMAScript [Date] object the component calls.

    Conventions.
    - A time value is a number of milliseconds since the epoch, a [Z].  A
      [Date] object holds a time value or NaN ("Invalid Date").
    - The local time zone has a constant offset [tza] (milliseconds east of
      UTC); daylight-saving changes are not modelled.
    - Every [new Date()] evaluated inside one synchronous call reads the same
      clock value [now]. *)

From Stdlib Require Import ZArith List String Ascii Bool Lia.
Import ListNotations.
Local Open Scope Z_scope.

(** ** ECMAScript time arithmetic (ECMA-262, "Time Values and Time Range") *)

Module ES.

Definition msPerDay : Z := 86400000.
Definition msPerHour : Z := 3600000.
Definition msPerMinute : Z := 60000.
Definition msPerSecond : Z := 1000.

(** Largest magnitude of a time value; [TimeClip] rejects anything beyond. *)
Definition maxTime : Z := 8640000000000000.

Definition Day (t : Z) : Z := t / msPerDay.
Definition TimeWithinDay (t : Z) : Z := t mod msPerDay.

Definition DaysInYear (y : Z) : Z :=
  if negb (y mod 4 =? 0) then 365
  else if negb (y mod 100 =? 0) then 366
  else if negb (y mod 400 =? 0) then 365
  else 366.

Definition DayFromYear (y : Z) : Z :=
  365 * (y - 1970) + (y - 1969) / 4 - (y - 1901) / 100 + (y - 1601) / 400.

Definition TimeFromYear (y : Z) : Z := msPerDay * DayFromYear y.

(** The largest [y] with [TimeFromYear y <= t]: a first guess from the mean
    length of a Gregorian year (146097 days in 400 years), corrected by one
    year in either direction. *)
Definition YearFromTime (t : Z) : Z :=
  let d := Day t in
  let y := 1970 + (d * 400) / 146097 in
  if d <? DayFromYear y then y - 1
  else if DayFromYear (y + 1) <=? d then y + 1
  else y.

Definition InLeapYear (t : Z) : Z :=
  if DaysInYear (YearFromTime t) =? 366 then 1 else 0.

Definition DayWithinYear (t : Z) : Z := Day t - DayFromYear (YearFromTime t).

(** Number of days of the year before month [m] (0 = January), for a year
    with [leap] extra days in February. *)
Definition daysBeforeMonth (leap m : Z) : Z :=
  match m with
  | 0 => 0
  | 1 => 31
  | 2 => 59 + leap
  | 3 => 90 + leap
  | 4 => 120 + leap
  | 5 => 151 + leap
  | 6 => 181 + leap
  | 7 => 212 + leap
  | 8 => 243 + leap
  | 9 => 273 + leap
  | 10 => 304 + leap
  | _ => 334 + leap
  end.

(** Length of month [m] in a year with [leap] extra days in February. *)
Definition daysInMonth (leap m : Z) : Z :=
  match m with
  | 1 => 28 + leap
  | 3 | 5 | 8 | 10 => 30
  | _ => 31
  end.

Definition MonthFromTime (t : Z) : Z :=
  let d := DayWithinYear t in
  let l := InLeapYear t in
  if d <? 31 then 0
  else if d <? 59 + l then 1
  else if d <? 90 + l then 2
  else if d <? 120 + l then 3
  else if d <? 151 + l then 4
  else if d <? 181 + l then 5
  else if d <? 212 + l then 6
  else if d <? 243 + l then 7
  else if d <? 273 + l then 8
  else if d <? 304 + l then 9
  else if d <? 334 + l then 10
  else 11.

Definition DateFromTime (t : Z) : Z :=
  DayWithinYear t - daysBeforeMonth (InLeapYear t) (MonthFromTime t) + 1.

Definition WeekDay (t : Z) : Z := (Day t + 4) mod 7.

Definition HourFromTime (t : Z) : Z := (t / msPerHour) mod 24.
Definition MinFromTime (t : Z) : Z := (t / msPerMinute) mod 60.

(** [MakeTime] on integers.  The specification computes it in double
    precision; the result below is that of the specification whenever the
    two products and their sum are at most 2^53 in magnitude, as they are
    for every hour and minute of a clock. *)
Definition MakeTime (hour min sec ms : Z) : Z :=
  hour * msPerHour + min * msPerMinute + sec * msPerSecond + ms.

(** [MakeDay year month date]: the day number of the first of the month
    [month] (which may lie outside 0..11 and then carries into the year),
    plus [date - 1]. *)
Definition MakeDay (year month date : Z) : Z :=
  let ym := year + month / 12 in
  let mn := month mod 12 in
  let leap := if DaysInYear ym =? 366 then 1 else 0 in
  DayFromYear ym + daysBeforeMonth leap mn + date - 1.

Definition MakeDate (day time : Z) : Z := day * msPerDay + time.

(** [TimeClip]: NaN ([None]) outside the representable range. *)
Definition TimeClip (t : Z) : option Z :=
  if maxTime <? Z.abs t then None else Some t.

Section Zone.
(** Offset of local time from UTC, in milliseconds.  The offset is one
    constant: a zone with daylight saving time is covered between two of
    its changes, not across one, where a local day has 23 or 25 hours. *)
Variable tza : Z.

Definition LocalTime (t : Z) : Z := t + tza.
Definition UTC (t : Z) : Z := t - tza.
End Zone.

End ES.

(** ** The fragment of the JavaScript runtime used by the component *)

Module JS.
Import ES.
Local Open Scope string_scope.
Local Open Scope Z_scope.

(** A JavaScript number that is either an integer or NaN ([None]).  All
    numbers the scheduler computes with are integers or NaN. *)
Definition Num : Type := option Z.

Definition numAdd (a b : Num) : Num :=
  match a, b with
  | Some x, Some y => Some (x + y)
  | _, _ => None
  end.

Definition numSub (a b : Num) : Num :=
  match a, b with
  | Some x, Some y => Some (x - y)
  | _, _ => None
  end.

(** The [%] operator: remainder with the sign of the dividend; NaN when
    the divisor is zero. *)
Definition numRem (a b : Num) : Num :=
  match a, b with
  | Some x, Some y => if y =? 0 then None else Some (Z.rem x y)
  | _, _ => None
  end.

(** *** Strings *)

Definition isWhiteSpace (c : ascii) : bool :=
  let n := nat_of_ascii c in
  ((9 <=? n) && (n <=? 13))%nat || (n =? 32)%nat.

Definition isDigit (c : ascii) : bool :=
  let n := nat_of_ascii c in ((48 <=? n) && (n <=? 57))%nat.

Definition digitValue (c : ascii) : Z := Z.of_nat (nat_of_ascii c) - 48.

Fixpoint trimStart (s : string) : string :=
  match s with
  | String c r => if isWhiteSpace c then trimStart r else s
  | EmptyString => EmptyString
  end.

Fixpoint rev_string (acc s : string) : string :=
  match s with
  | String c r => rev_string (String c acc) r
  | EmptyString => acc
  end.

Definition trim (s : string) : string :=
  rev_string "" (trimStart (rev_string "" (trimStart s))).

(** Value of a non-empty run of decimal digits; NaN on any other character. *)
Fixpoint digitsValue (acc : Z) (s : string) : Num :=
  match s with
  | EmptyString => Some acc
  | String c r => if isDigit c then digitsValue (10 * acc + digitValue c) r else None
  end.

(** [Number(s)] on strings, for the strings of hour:minute notation:
    surrounding ASCII white space is dropped, the empty string is 0, an
    optionally signed run of decimal digits is its value.  On these strings
    the result is that of the language as long as the value is at most 2^53
    in magnitude.  Every other string is answered with NaN; that is the
    answer of the language for a string that is not a numeric literal, but
    not for a literal with a fraction, an exponent, a radix prefix, the word
    [Infinity] or white space outside ASCII.  Statements that rely on a NaN
    therefore name the strings they are about ([startsNoNumeral] below). *)
Definition Number (s : string) : Num :=
  match trim s with
  | EmptyString => Some 0
  | String "+" (String c r) => digitsValue 0 (String c r)
  | String "-" (String c r) => option_map Z.opp (digitsValue 0 (String c r))
  | String c r => digitsValue 0 (String c r)
  end.

(** A string that begins, after its leading white space, with an ASCII
    character with which no numeric literal begins: not a digit, a sign, a
    dot or the I of [Infinity].  [Number] of such a string is NaN. *)
Definition startsNoNumeral (s : string) : bool :=
  match trimStart s with
  | String c _ =>
      (nat_of_ascii c <? 128)%nat && negb (isDigit c) &&
      negb (Ascii.eqb c "+") && negb (Ascii.eqb c "-") &&
      negb (Ascii.eqb c ".") && negb (Ascii.eqb c "I")
  | EmptyString => false
  end.

(** [s.split(sep)] for a one-character separator. *)
Fixpoint splitAcc (sep : ascii) (cur : string) (s : string) : list string :=
  match s with
  | EmptyString => [rev_string "" cur]
  | String c r =>
      if Ascii.eqb c sep then rev_string "" cur :: splitAcc sep "" r
      else splitAcc sep (String c cur) r
  end.

Definition split (sep : ascii) (s : string) : list string := splitAcc sep "" s.

Definition lowerChar (c : ascii) : ascii :=
  let n := nat_of_ascii c in
  if ((65 <=? n) && (n <=? 90))%nat then ascii_of_nat (n + 32) else c.

(** [s.toLowerCase()]; characters outside A-Z are left as they are (no
    character outside ASCII lower-cases to a letter of a weekday name). *)
Fixpoint toLowerCase (s : string) : string :=
  match s with
  | EmptyString => EmptyString
  | String c r => String (lowerChar c) (toLowerCase r)
  end.

(** [arr.indexOf(x)]: first position of [x], or -1. *)
Fixpoint indexOfFrom (i : Z) (arr : list string) (x : string) : Z :=
  match arr with
  | [] => -1
  | y :: r => if String.eqb y x then i else indexOfFrom (i + 1) r x
  end.

Definition indexOf (arr : list string) (x : string) : Z := indexOfFrom 0 arr x.

(** [s.includes(sub)]. *)
Fixpoint includes (s sub : string) : bool :=
  String.prefix sub s ||
  match s with
  | EmptyString => false
  | String _ r => includes r sub
  end.

(** A value of an optional string parameter is truthy when it is present
    and not empty. *)
Definition truthy (s : option string) : bool :=
  match s with
  | Some s => negb (String.eqb s "")
  | None => false
  end.

(** [x === lit] for an optional string [x] and a string literal. *)
Definition strictEq (x : option string) (lit : string) : bool :=
  match x with
  | Some s => String.eqb s lit
  | None => false
  end.

(** *** Completions *)

Inductive Thrown : Type :=
| ErrorObject (name message : string)   (* an [Error] instance *)
| OtherValue.                           (* anything else that was thrown *)

Inductive Completion (A : Type) : Type :=
| Normal (a : A)
| Throw (e : Thrown).
Arguments Normal {A} a.
Arguments Throw {A} e.

(** *** Date objects *)

(** The time value of a [Date]; [None] is NaN, an "Invalid Date". *)
Definition Date : Type := option Z.

Section Zone.
Variable tza : Z.

(** The time value of local [year]-[month]-[date] [hours]:[minutes]
    ([month] counts from 0), and [new Date(year, month, date, hours,
    minutes)]. *)
Definition dateValue (year month date hours minutes : Z) : Z :=
  UTC tza (MakeDate (MakeDay year month date) (MakeTime hours minutes 0 0)).

Definition newDate (year month date hours minutes : Z) : Date :=
  TimeClip (dateValue year month date hours minutes).

Definition getDate (d : Date) : Num := option_map (fun t => DateFromTime (LocalTime tza t)) d.
Definition getMonth (d : Date) : Num := option_map (fun t => MonthFromTime (LocalTime tza t)) d.
Definition getFullYear (d : Date) : Num := option_map (fun t => YearFromTime (LocalTime tza t)) d.
Definition getDay (d : Date) : Num := option_map (fun t => WeekDay (LocalTime tza t)) d.
Definition getHours (d : Date) : Num := option_map (fun t => HourFromTime (LocalTime tza t)) d.
Definition getMinutes (d : Date) : Num := option_map (fun t => MinFromTime (LocalTime tza t)) d.

(** [d.setHours(hour, min, sec, ms)] *)
Definition setHours (d : Date) (hour min sec ms : Num) : Date :=
  match d, hour, min, sec, ms with
  | Some t, Some h, Some m, Some s, Some milli =>
      TimeClip (UTC tza (MakeDate (Day (LocalTime tza t)) (MakeTime h m s milli)))
  | _, _, _, _, _ => None
  end.

(** [d.setDate(date)] *)
Definition setDate (d : Date) (date : Num) : Date :=
  match d, date with
  | Some t, Some dt =>
      let l := LocalTime tza t in
      TimeClip (UTC tza (MakeDate (MakeDay (YearFromTime l) (MonthFromTime l) dt) (TimeWithinDay l)))
  | _, _ => None
  end.

(** [d.setMonth(month)] *)
Definition setMonth (d : Date) (month : Num) : Date :=
  match d, month with
  | Some t, Some m =>
      let l := LocalTime tza t in
      TimeClip (UTC tza (MakeDate (MakeDay (YearFromTime l) m (DateFromTime l)) (TimeWithinDay l)))
  | _, _ => None
  end.
End Zone.

(** [d <= now] on a [Date] and a valid time value; false when [d] is NaN. *)
Definition dateLe (d : Date) (now : Z) : bool :=
  match d with
  | Some t => t <=? now
  | None => false
  end.

(** [d.toISOString()].  The ISO-8601 text is represented by the time value
    it denotes ([new Date(text)] reads the same value back); an invalid date
    throws a [RangeError]. *)
Definition toISOString (d : Date) : Completion Z :=
  match d with
  | Some t => Normal t
  | None => Throw (ErrorObject "RangeError" "Invalid time value")
  end.

End JS.

(** ** The content scheduler *)

Module Scheduler.
Import ES JS.
Local Open Scope string_scope.
Local Open Scope Z_scope.

(** The weekday names, indexed as [Date.prototype.getDay] numbers them. *)
Definition days : list string :=
  ["sunday"; "monday"; "tuesday"; "wednesday"; "thursday"; "friday"; "saturday"].

(** [const [hours, minutes] = time.split(":").map(Number)]; a missing
    element is [undefined], which [setHours] converts to NaN. *)
Definition parseTime (time : string) : Num * Num :=
  match map Number (split ":" time) with
  | h :: m :: _ => (h, m)
  | [h] => (h, None)
  | [] => (None, None)
  end.

Section Zone.
Variable tza : Z.

(** The day adjustment shared by the [weekly] and [biweekly] cases: [same]
    is added when the target day is the candidate's own weekday, the
    forward offset plus [extra] otherwise. *)
Definition advanceToDay (nextRun : Date) (dayOfWeek : option string) (same extra : Z) : Date :=
  match dayOfWeek with
  | Some dow =>
      if String.eqb dow "" then nextRun
      else
        let targetDay := indexOf days (toLowerCase dow) in
        if negb (targetDay =? -1) then
          let currentDay := getDay tza nextRun in
          let daysToAdd := numRem (numSub (Some (targetDay + 7)) currentDay) (Some 7) in
          setDate tza nextRun
            (numAdd (getDate tza nextRun)
               (match daysToAdd with
                | Some 0 => Some same
                | Some d => Some (d + extra)
                | None => None
                end))
        else nextRun
  | None => nextRun
  end.

(** The candidate: [nextRun] after the "Set the time" step, today's date
    at [time], or the clock value itself when no time is given. *)
Definition candidate (now : Z) (time : option string) : Date :=
  let nextRun : Date := Some now in
  match time with
  | Some tm =>
      if String.eqb tm "" then nextRun
      else let '(hours, minutes) := parseTime tm in
           setHours tza nextRun hours minutes (Some 0) (Some 0)
  | None => nextRun
  end.

Definition calculateNextRun (now : Z) (frequency dayOfWeek time : option string) : Completion Z :=
  (* Set the time *)
  let nextRun := candidate now time in
  (* If the time is in the past today, move to the next occurrence *)
  let nextRun :=
    if dateLe nextRun now then
      if strictEq frequency "daily" then
        setDate tza nextRun (numAdd (getDate tza nextRun) (Some 1))
      else
        (* First, move to tomorrow as a starting point *)
        let nextRun := setDate tza nextRun (numAdd (getDate tza nextRun) (Some 1)) in
        if strictEq frequency "weekly" then advanceToDay nextRun dayOfWeek 7 0
        else if strictEq frequency "biweekly" then advanceToDay nextRun dayOfWeek 14 7
        else if strictEq frequency "monthly" then
          setMonth tza nextRun (numAdd (getMonth tza nextRun) (Some 1))
        else nextRun
    else nextRun in
  toISOString nextRun.
End Zone.

(** *** Schedules *)

Inductive Status : Type := scheduled | completed | failed | in_progress.

Record ScheduledPost : Type := {
  id : string;
  date : string;
  time : string;
  topic : string;
  status : Status;
  frequency : option string;
  dayOfWeek : option string;
  contentType : option string;
  wordCount : option Z;
  tone : option string;
  audience : option string;
  autoPublish : option bool;
  lastRun : option Z;
  nextRun : option Z;
  result : option string
}.

(** The arguments of one call of [generateScheduledContent]. *)
Record RunArgs : Type := {
  scheduleId : string;
  runTopic : string;
  runFrequency : option string;
  runDayOfWeek : option string;
  runTime : string;
  runAutoPublish : bool;
  runContentType : string;
  runWordCount : Z;
  runTone : string;
  runAudience : string
}.

(** The state updates the component passes to [setSchedules]: a new value,
    or one of the four updater functions of [generateScheduledContent]. *)
Inductive StateUpdate : Type :=
| SetTo (value : list ScheduledPost)
| MarkGenerating (scheduleId : string)
| MarkCompleted (scheduleId : string) (frequency dayOfWeek : option string)
                (time : string) (result : string)
| MarkFailed (scheduleId : string) (errorMessage : string)
| MarkScheduled (scheduleId : string).

Inductive Effect : Type :=
| SetSchedules (u : StateUpdate)
| Run (args : RunArgs)                     (* generateScheduledContent, not awaited *)
| Toast (title description : string) (destructive : bool)
| SetTimeout (delay : Z) (u : StateUpdate).

Definition withStatus (s : ScheduledPost) (st : Status) : ScheduledPost :=
  {| id := id s; date := date s; time := time s; topic := topic s; status := st;
     frequency := frequency s; dayOfWeek := dayOfWeek s; contentType := contentType s;
     wordCount := wordCount s; tone := tone s; audience := audience s;
     autoPublish := autoPublish s; lastRun := lastRun s; nextRun := nextRun s;
     result := result s |}.

Definition withResult (s : ScheduledPost) (r : string) : ScheduledPost :=
  {| id := id s; date := date s; time := time s; topic := topic s; status := status s;
     frequency := frequency s; dayOfWeek := dayOfWeek s; contentType := contentType s;
     wordCount := wordCount s; tone := tone s; audience := audience s;
     autoPublish := autoPublish s; lastRun := lastRun s; nextRun := nextRun s;
     result := Some r |}.

Definition withLastRun (s : ScheduledPost) (t : Z) : ScheduledPost :=
  {| id := id s; date := date s; time := time s; topic := topic s; status := status s;
     frequency := frequency s; dayOfWeek := dayOfWeek s; contentType := contentType s;
     wordCount := wordCount s; tone := tone s; audience := audience s;
     autoPublish := autoPublish s; lastRun := Some t; nextRun := nextRun s;
     result := result s |}.

Definition withNextRun (s : ScheduledPost) (t : Z) : ScheduledPost :=
  {| id := id s; date := date s; time := time s; topic := topic s; status := status s;
     frequency := frequency s; dayOfWeek := dayOfWeek s; contentType := contentType s;
     wordCount := wordCount s; tone := tone s; audience := audience s;
     autoPublish := autoPublish s; lastRun := lastRun s; nextRun := Some t;
     result := result s |}.

Definition status_eqb (a b : Status) : bool :=
  match a, b with
  | scheduled, scheduled | completed, completed
  | failed, failed | in_progress, in_progress => true
  | _, _ => false
  end.

(** *** The poller *)

(** The test of the loop body of [checkSchedules]: status [scheduled], a
    [nextRun] that is present, and [nextRun <= now]. *)
Definition isDue (now : Z) (s : ScheduledPost) : bool :=
  status_eqb (status s) scheduled &&
  match nextRun s with
  | Some t => t <=? now
  | None => false
  end.

(** [{...schedule, status: "in-progress", lastRun: new Date().toISOString()}] *)
Definition pickUp (now : Z) (s : ScheduledPost) : ScheduledPost :=
  withLastRun (withStatus s in_progress) now.

(** The arguments [checkSchedules] passes to [generateScheduledContent];
    the parameters with default values take them when the field is absent,
    and [autoPublish] is only ever tested for truth. *)
Definition runArgsOf (s : ScheduledPost) : RunArgs :=
  {| scheduleId := id s;
     runTopic := topic s;
     runFrequency := frequency s;
     runDayOfWeek := dayOfWeek s;
     runTime := time s;
     runAutoPublish := match autoPublish s with Some b => b | None => false end;
     runContentType := match contentType s with Some c => c | None => "blog-post" end;
     runWordCount := match wordCount s with Some w => w | None => 1500 end;
     runTone := match tone s with Some c => c | None => "professional" end;
     runAudience := match audience s with Some c => c | None => "general" end |}.

(** The [for] loop of [checkSchedules] over [updatedSchedules]: the updated
    array, the runs started, and [hasChanges]. *)
Fixpoint scan (now : Z) (schedules : list ScheduledPost)
  : list ScheduledPost * list RunArgs * bool :=
  match schedules with
  | [] => ([], [], false)
  | s :: rest =>
      let '(updated, runs, hasChanges) := scan now rest in
      if isDue now s then (pickUp now s :: updated, runArgsOf s :: runs, true)
      else (s :: updated, runs, hasChanges)
  end.

Definition checkSchedules (now : Z) (schedules : list ScheduledPost) : list Effect :=
  let '(updatedSchedules, runs, hasChanges) := scan now schedules in
  map Run runs ++
  (if hasChanges then [SetSchedules (SetTo updatedSchedules)] else []).

(** *** The run executor *)

(** How the two awaited server actions of a run can end. *)
Inductive GenerateOutcome : Type :=
| Generated (content : string) (suggestedCategories : list (string * option string))
| GenerateThrows (e : Thrown).

Inductive PublishOutcome : Type :=
| Published (success : bool) (error : option string)   (* the object returned *)
| PublishThrows (e : Thrown).

Definition shortDelay : Z := 5000.
Definition longDelay : Z := 10000.

Definition termCollisionNote : string :=
  "A category with this name already exists. The post was still created successfully.".

(** The [catch] block of [generateScheduledContent]. *)
Definition handleError (a : RunArgs) (e : Thrown) : list Effect :=
  let hard (errorMessage : string) :=
    [ SetSchedules (MarkFailed (scheduleId a) errorMessage);
      Toast "Error generating content" errorMessage true;
      SetTimeout longDelay (MarkScheduled (scheduleId a)) ] in
  match e with
  | ErrorObject _ message =>
      if includes message "term_exists" then
        let errorMessage := termCollisionNote in
        [ SetSchedules
            (MarkCompleted (scheduleId a) (runFrequency a) (runDayOfWeek a) (runTime a)
               ("Content generated with a warning: " ++ errorMessage));
          Toast "Content generated with warning" errorMessage false;
          SetTimeout shortDelay (MarkScheduled (scheduleId a)) ]
      else hard message
  | OtherValue => hard "Failed to generate content"
  end.

(** One run: the effects of [generateScheduledContent] for given outcomes
    of [generateContentAction] and [publishPostAction], in program order. *)
Definition generateScheduledContent (a : RunArgs)
    (gen : GenerateOutcome) (pub : PublishOutcome) : list Effect :=
  SetSchedules (MarkGenerating (scheduleId a)) ::
  match gen with
  | GenerateThrows e => handleError a e
  | Generated content suggestedCategories =>
      match pub with
      | PublishThrows e => handleError a e
      | Published false error =>
          handleError a
            (ErrorObject "Error"
               (match error with
                | Some msg => if String.eqb msg "" then "Failed to publish post" else msg
                | None => "Failed to publish post"
                end))
      | Published true _ =>
          [ SetSchedules
              (MarkCompleted (scheduleId a) (runFrequency a) (runDayOfWeek a) (runTime a)
                 (if runAutoPublish a
                  then "Content generated and published successfully"
                  else "Content generated and saved as draft"));
            Toast "Content generated"
              (if runAutoPublish a
               then "Scheduled content has been generated and published."
               else "Scheduled content has been generated and saved as draft.")
              false;
            SetTimeout shortDelay (MarkScheduled (scheduleId a)) ]
      end
  end.

(** *** The store: what a state update does to the array of schedules *)

Definition hasId (scheduleId : string) (s : ScheduledPost) : bool :=
  String.eqb (id s) scheduleId.

Definition mapId (scheduleId : string) (f : ScheduledPost -> ScheduledPost)
    (prev : list ScheduledPost) : list ScheduledPost :=
  map (fun s => if hasId scheduleId s then f s else s) prev.

Section Zone.
Variable tza : Z.

(** [now] is the clock at the moment the update is evaluated.  The
    updater of [MarkCompleted] calls [calculateNextRun] for each schedule
    with the given id, and an exception of the calculator leaves the
    updater. *)
Definition applyUpdate (now : Z) (u : StateUpdate) (prev : list ScheduledPost)
  : Completion (list ScheduledPost) :=
  match u with
  | SetTo value => Normal value
  | MarkGenerating sid =>
      Normal (mapId sid (fun s => withResult (withStatus s in_progress) "Generating content...") prev)
  | MarkCompleted sid freq dow tm res =>
      if existsb (hasId sid) prev then
        match calculateNextRun tza now freq dow (Some tm) with
        | Normal next =>
            Normal (mapId sid
                      (fun s => withResult (withNextRun (withLastRun (withStatus s completed) now) next) res)
                      prev)
        | Throw e => Throw e
        end
      else Normal prev
  | MarkFailed sid errorMessage =>
      Normal (mapId sid (fun s => withResult (withStatus s failed) errorMessage) prev)
  | MarkScheduled sid =>
      Normal (mapId sid (fun s => withStatus s scheduled) prev)
  end.

(** The queued updates are applied in the order they were queued. *)
Fixpoint applyUpdates (now : Z) (us : list StateUpdate) (prev : list ScheduledPost)
  : Completion (list ScheduledPost) :=
  match us with
  | [] => Normal prev
  | u :: rest =>
      match applyUpdate now u prev with
      | Normal next => applyUpdates now rest next
      | Throw e => Throw e
      end
  end.
End Zone.

(** The updates an effect trace queues before it yields: those it passes to
    [setSchedules] itself, and the first update of each run it starts (the
    body of an [async] function runs up to its first [await]). *)
Definition queued (es : list Effect) : list StateUpdate :=
  flat_map (fun e =>
              match e with
              | SetSchedules u => [u]
              | Run a => [MarkGenerating (scheduleId a)]
              | Toast _ _ _ => []
              | SetTimeout _ _ => []
              end) es.

(** The updates an effect trace leaves on timers, with their delays. *)
Definition timers (es : list Effect) : list (Z * StateUpdate) :=
  flat_map (fun e =>
              match e with
              | SetTimeout d u => [(d, u)]
              | _ => []
              end) es.

(** *** Vocabulary for the statements *)

(** The four frequencies of the data model. *)
Definition frequencies : list string := ["daily"; "weekly"; "biweekly"; "monthly"].

(** A time string that reads as hour:minute on the 24-hour clock. *)
Definition validTimeOfDay (time : string) : bool :=
  match parseTime time with
  | (Some h, Some m) => (0 <=? h) && (h <? 24) && (0 <=? m) && (m <? 60)
  | _ => false
  end.

(** The weekday number a [dayOfWeek] argument names, if it names one. *)
Definition targetDayOf (dayOfWeek : option string) : option Z :=
  match dayOfWeek with
  | Some dow =>
      if String.eqb dow "" then None
      else let i := indexOf days (toLowerCase dow) in
           if i =? -1 then None else Some i
  | None => None
  end.

(** A clock value at least forty days inside the range of time values. *)
Definition clockInRange (now : Z) : bool :=
  Z.abs now <=? maxTime - 40 * msPerDay.

(** The time value of the local calendar day [n] days after the day of
    [now], at [h]:[m] local time. *)
Definition atDay (tza now n h m : Z) : Z :=
  UTC tza (MakeDate (Day (LocalTime tza now) + n) (MakeTime h m 0 0)).

(** The local calendar day (days since the epoch) a time value falls on. *)
Definition localDay (tza t : Z) : Z := Day (LocalTime tza t).

(** The local weekday (0 = Sunday) a time value falls on. *)
Definition localWeekDay (tza t : Z) : Z := WeekDay (LocalTime tza t).


(** The error with which the publish step of a run fails, if it fails: the
    exception of [publishPostAction], or the [Error] the executor throws
    when the returned object has [success] false. *)
Definition publishFailure (pub : PublishOutcome) : option Thrown :=
  match pub with
  | PublishThrows e => Some e
  | Published false error =>
      Some (ErrorObject "Error"
              (match error with
               | Some msg => if String.eqb msg "" then "Failed to publish post" else msg
               | None => "Failed to publish post"
               end))
  | Published true _ => None
  end.

(** The error that reaches the [catch] block of a run, if any. *)
Definition runFailure (gen : GenerateOutcome) (pub : PublishOutcome) : option Thrown :=
  match gen with
  | GenerateThrows e => Some e
  | Generated _ _ => publishFailure pub
  end.

(** An error carrying the term-collision marker. *)
Definition isTermCollision (e : Thrown) : bool :=
  match e with
  | ErrorObject _ message => includes message "term_exists"
  | OtherValue => false
  end.

(** The message of an error, as the [catch] block reads it. *)
Definition errorMessageOf (e : Thrown) : string :=
  match e with
  | ErrorObject _ message => message
  | OtherValue => "Failed to generate content"
  end.

(** A schedule as the form creates it. *)
Definition sampleSchedule : ScheduledPost :=
  {| id := "schedule-1704103200000"; date := "2024-01-01"; time := "09:00";
     topic := "Content about wordpress"; status := scheduled;
     frequency := Some "weekly"; dayOfWeek := Some "monday";
     contentType := Some "blog-post"; wordCount := Some 1500;
     tone := Some "professional"; audience := Some "general";
     autoPublish := Some true; lastRun := None;
     nextRun := Some 1704099600000; result := None |}.

(** A second schedule, with another id. *)
Definition otherSchedule : ScheduledPost :=
  {| id := "schedule-1704189600000"; date := "2024-01-02"; time := "18:30";
     topic := "Content about seo"; status := scheduled;
     frequency := Some "daily"; dayOfWeek := None;
     contentType := Some "blog-post"; wordCount := Some 800;
     tone := Some "casual"; audience := Some "general";
     autoPublish := Some false; lastRun := None;
     nextRun := Some 1704220200000; result := None |}.

(** The fields of a schedule that neither a run nor the poller writes. *)
Definition sameSettings (s s' : ScheduledPost) : Prop :=
  id s' = id s /\ date s' = date s /\ time s' = time s /\ topic s' = topic s /\
  frequency s' = frequency s /\ dayOfWeek s' = dayOfWeek s /\
  contentType s' = contentType s /\ wordCount s' = wordCount s /\
  tone s' = tone s /\ audience s' = audience s /\ autoPublish s' = autoPublish s.

(** The store [st] is the store [prev] with each schedule of id [sid]
    replaced, in its place, by one that [P] relates to it, and every other
    schedule left as it was. *)
Definition rewritten (sid : string) (P : ScheduledPost -> ScheduledPost -> Prop)
    (prev st : list ScheduledPost) : Prop :=
  List.length st = List.length prev /\
  forall i s, nth_error prev i = Some s ->
    exists s', nth_error st i = Some s' /\
               if String.eqb (id s) sid then P s s' else s' = s.


(** A time string that cannot be read as hour:minute: it has no colon, so
    that the minute is [undefined], or its hour or minute part begins with
    a character no numeric literal begins with. *)
Definition unreadableTime (time : string) : bool :=
  match split ":" time with
  | [_] => true
  | hours :: minutes :: _ => startsNoNumeral hours || startsNoNumeral minutes
  | [] => false
  end.

(** Closed form of the day adjustment of [advanceToDay]: the days added to
    a candidate on weekday [cur] to reach weekday [target]. *)
Definition weekStep (same extra target cur : Z) : Z :=
  let d := (target + 7 - cur) mod 7 in
  if d =? 0 then same else d + extra.

(** Closed form of the whole adjustment of [calculateNextRun] for a
    candidate [c] that has passed: the number of days added to it. *)
Definition daysAdded (tza c : Z) (frequency dayOfWeek : option string) : Z :=
  let tomorrow := c + msPerDay in
  let onDay same extra :=
    match targetDayOf dayOfWeek with
    | Some target => 1 + weekStep same extra target (localWeekDay tza tomorrow)
    | None => 1
    end in
  if strictEq frequency "daily" then 1
  else if strictEq frequency "weekly" then onDay 7 0
  else if strictEq frequency "biweekly" then onDay 14 7
  else if strictEq frequency "monthly" then
    1 + daysInMonth (InLeapYear (LocalTime tza tomorrow)) (MonthFromTime (LocalTime tza tomorrow))
  else 1.

End Scheduler.

(** ** The rest of the component: the form, the table actions, the
    manual trigger *)

From Stdlib Require Import DecimalString.

Module Component.
Import ES JS Scheduler.
Local Open Scope string_scope.
Local Open Scope Z_scope.

(** A number in a template literal: its decimal digits. *)
Definition decimal (n : Z) : string := NilZero.string_of_int (Z.to_int n).

(** [x || d] for an optional string: [d] when [x] is absent or empty. *)
Definition orString (x : option string) (d : string) : string :=
  match x with
  | Some s => if String.eqb s "" then d else s
  | None => d
  end.

(** [x || d] for an optional number: [d] when [x] is absent or zero. *)
Definition orNumber (x : option Z) (d : Z) : Z :=
  match x with
  | Some n => if n =? 0 then d else n
  | None => d
  end.

(** [x || false] for an optional boolean. *)
Definition orFalse (x : option bool) : bool :=
  match x with
  | Some b => b
  | None => false
  end.

(** The values of the schedule form after validation.  [formDate] is the
    text [format(startDate, "yyyy-MM-dd")] of the date library, for the
    chosen start date or for today. *)
Record FormData : Type := {
  formFrequency : string;
  formDayOfWeek : option string;
  formTime : string;
  formTopicKeywords : string;
  formAutoPublish : bool;
  formDate : string;
  formContentType : string;
  formWordCount : Z;
  formTone : string;
  formAudience : string
}.

(** The part of the component state the handlers below read and write. *)
Record State : Type := {
  schedules : list ScheduledPost;
  activeSchedule : option string;
  error : option string
}.

(** [data.topicKeywords.split(",")[0]] *)
Definition firstKeyword (topicKeywords : string) : string :=
  match split "," topicKeywords with
  | k :: _ => k
  | [] => ""
  end.

(** The [topic] the form gives a schedule. *)
Definition topicOf (topicKeywords : string) : string :=
  "Content about " ++ firstKeyword topicKeywords.

(** [s.replace(pat, "")] for a string pattern: the first occurrence of
    [pat] is dropped. *)
Fixpoint dropChars (n : nat) (s : string) : string :=
  match n, s with
  | S k, String _ r => dropChars k r
  | _, _ => s
  end.

Fixpoint removeFirst (pat s : string) : string :=
  if String.prefix pat s then dropChars (String.length pat) s
  else match s with
       | EmptyString => EmptyString
       | String c r => String c (removeFirst pat r)
       end.

(** The keywords and the title a run derives from the topic
    ([generateScheduledContent], "Extract keywords from topic"). *)
Definition keywordsOf (topic : string) : string := removeFirst "Content about " topic.

Definition generationTitle (topic : string) : string :=
  "Auto-generated: " ++ keywordsOf topic.

Section Zone.
Variable tza : Z.

(** The [newSchedule] object of [onSubmit]; evaluating its [nextRun] field
    can throw. *)
Definition newSchedule (now : Z) (data : FormData) : Completion ScheduledPost :=
  match calculateNextRun tza now (Some (formFrequency data)) (formDayOfWeek data)
          (Some (formTime data)) with
  | Normal next =>
      Normal {| id := "schedule-" ++ decimal now;
                date := formDate data;
                time := formTime data;
                topic := topicOf (formTopicKeywords data);
                status := scheduled;
                frequency := Some (formFrequency data);
                dayOfWeek := formDayOfWeek data;
                contentType := Some (formContentType data);
                wordCount := Some (formWordCount data);
                tone := Some (formTone data);
                audience := Some (formAudience data);
                autoPublish := Some (formAutoPublish data);
                lastRun := None;
                nextRun := Some next;
                result := None |}
  | Throw e => Throw e
  end.

(** [onSubmit]: the state after the handler, for a call of
    [saveScheduleAction] that returns ([saved] true) or throws.  Whatever
    is thrown inside the [try] block ends in the [catch] block, which only
    sets the error text. *)
Definition onSubmit (now : Z) (data : FormData) (saved : bool) (st : State) : State :=
  let failedState :=
    {| schedules := schedules st; activeSchedule := activeSchedule st;
       error := Some "Failed to save schedule. Please try again." |} in
  match newSchedule now data with
  | Normal new =>
      if saved then
        let updatedSchedules :=
          if truthy (activeSchedule st)
          then map (fun s => if strictEq (activeSchedule st) (id s) then new else s)
                   (schedules st)
          else (schedules st ++ [new])%list in
        {| schedules := updatedSchedules; activeSchedule := None; error := None |}
      else failedState
  | Throw _ => failedState
  end.
End Zone.

(** [removeSchedule] *)
Definition removeSchedule (sid : string) (st : State) : State :=
  {| schedules := filter (fun s => negb (String.eqb (id s) sid)) (schedules st);
     activeSchedule := if strictEq (activeSchedule st) sid then None else activeSchedule st;
     error := error st |}.

(** The "Clear All" button. *)
Definition clearAll (st : State) : State :=
  {| schedules := []; activeSchedule := activeSchedule st; error := error st |}.

(** [editSchedule]: the schedule becomes the active one and its fields are
    written into the form; nothing happens when no schedule has the id.
    [dateText] is the text the date library will give for the start date
    the handler sets. *)
Definition editSchedule (sid : string) (dateText : string) (st : State)
  : State * option FormData :=
  match find (hasId sid) (schedules st) with
  | None => (st, None)
  | Some schedule =>
      ({| schedules := schedules st; activeSchedule := Some sid; error := error st |},
       Some {| formFrequency := orString (frequency schedule) "weekly";
               formDayOfWeek := Some (orString (dayOfWeek schedule) "monday");
               formTime := time schedule;
               formTopicKeywords := topic schedule;
               formAutoPublish := orFalse (autoPublish schedule);
               formDate := dateText;
               formContentType := orString (contentType schedule) "blog-post";
               formWordCount := orNumber (wordCount schedule) 1500;
               formTone := orString (tone schedule) "professional";
               formAudience := orString (audience schedule) "general" |})
  end.

(** The arguments [triggerScheduleNow] passes to
    [generateScheduledContent]. *)
Definition manualArgs (s : ScheduledPost) : RunArgs :=
  {| scheduleId := id s;
     runTopic := topic s;
     runFrequency := Some (orString (frequency s) "weekly");
     runDayOfWeek := Some (orString (dayOfWeek s) "monday");
     runTime := time s;
     runAutoPublish := orFalse (autoPublish s);
     runContentType := orString (contentType s) "blog-post";
     runWordCount := orNumber (wordCount s) 1500;
     runTone := orString (tone s) "professional";
     runAudience := orString (audience s) "general" |}.

(** [triggerScheduleNow]: nothing when no schedule has the id, else a
    toast and one run of the first schedule with the id. *)
Definition triggerScheduleNow (sid : string) (st : State) : list Effect :=
  match find (hasId sid) (schedules st) with
  | None => []
  | Some schedule =>
      [ Toast "Triggering schedule" "Manually running the scheduled content generation..." false;
        Run (manualArgs schedule) ]
  end.

(** A schedule for which every [||] of [triggerScheduleNow] keeps the
    field: frequency and day present and not empty, and no optional field
    present with an empty or zero value. *)
Definition fullySpecified (s : ScheduledPost) : bool :=
  truthy (frequency s) && truthy (dayOfWeek s) &&
  negb (strictEq (contentType s) "") && negb (strictEq (tone s) "") &&
  negb (strictEq (audience s) "") &&
  match wordCount s with Some n => negb (n =? 0) | None => true end.

(** The result text of a run that succeeds. *)
Definition successText (autoPublish : bool) : string :=
  if autoPublish then "Content generated and published successfully"
  else "Content generated and saved as draft".

(** The default values of the form, a state holding the sample schedule,
    and the same state while that schedule is being edited. *)
Definition sampleForm : FormData :=
  {| formFrequency := "weekly"; formDayOfWeek := Some "monday"; formTime := "09:00";
     formTopicKeywords := "wordpress, blogging, content marketing";
     formAutoPublish := true; formDate := "2024-01-01";
     formContentType := "blog-post"; formWordCount := 1500;
     formTone := "professional"; formAudience := "general" |}.

Definition sampleState : State :=
  {| schedules := [sampleSchedule]; activeSchedule := None; error := None |}.

Definition editingState : State :=
  {| schedules := [sampleSchedule]; activeSchedule := Some (id sampleSchedule);
     error := None |}.

(** The state updates of a whole run, those queued at once followed by
    those left on timers. *)
Definition runUpdates (es : list Effect) : list StateUpdate :=
  (queued es ++ map snd (timers es))%list.

End Component.

(** ** Server actions *)

Module Actions.
Import JS Scheduler Component.
Local Open Scope string_scope.
Local Open Scope Z_scope.

(** [getTimeAgo(date)] at clock [now], both as time values. *)
Definition getTimeAgo (now date : Z) : string :=
  let diffMs := now - date in
  let diffSec := diffMs / 1000 in
  let diffMin := diffSec / 60 in
  let diffHour := diffMin / 60 in
  let diffDay := diffHour / 24 in
  if 0 <? diffDay then
    if diffDay =? 1 then "1 day ago" else decimal diffDay ++ " days ago"
  else if 0 <? diffHour then
    if diffHour =? 1 then "1 hour ago" else decimal diffHour ++ " hours ago"
  else if 0 <? diffMin then
    if diffMin =? 1 then "1 minute ago" else decimal diffMin ++ " minutes ago"
  else "just now".

(** The slug [publishPostAction] sends with a category it creates:
    [name.toLowerCase().replace(/\s+/g, "-").replace(/[^a-z0-9-]/g, "")].
    [hyphenate] replaces each run of white space by one hyphen ([inRun]
    tells that the previous character was white space). *)
Fixpoint hyphenate (inRun : bool) (s : string) : string :=
  match s with
  | EmptyString => EmptyString
  | String c r =>
      if isWhiteSpace c then
        if inRun then hyphenate true r else String "-" (hyphenate true r)
      else String c (hyphenate false r)
  end.

Definition isSlugChar (c : ascii) : bool :=
  let n := nat_of_ascii c in
  ((97 <=? n) && (n <=? 122))%nat || ((48 <=? n) && (n <=? 57))%nat || (n =? 45)%nat.

Fixpoint keepSlugChars (s : string) : string :=
  match s with
  | EmptyString => EmptyString
  | String c r => if isSlugChar c then String c (keepSlugChars r) else keepSlugChars r
  end.

Definition categorySlug (name : string) : string :=
  keepSlugChars (hyphenate false (toLowerCase name)).

(** Whether every character of a string satisfies [p]. *)
Fixpoint allChars (p : ascii -> bool) (s : string) : bool :=
  match s with
  | EmptyString => true
  | String c r => p c && allChars p r
  end.

(** The characters on which [toLowerCase] and [\s] are modelled exactly. *)
Definition isAscii (c : ascii) : bool := (nat_of_ascii c <? 128)%nat.

(** The [catch] block of [generateContentAction]: what the action throws
    when anything inside it threw [e]. *)
Definition generateCatch (e : Thrown) : Thrown :=
  match e with
  | ErrorObject _ message => ErrorObject "Error" ("Failed to generate content: " ++ message)
  | OtherValue => ErrorObject "Error" "Failed to generate content."
  end.

(** The [catch] block of [publishPostAction]: what the action returns when
    anything inside it threw [e]. *)
Definition publishCatch (e : Thrown) : PublishOutcome :=
  match e with
  | ErrorObject _ message => Published false (Some ("Failed to publish post: " ++ message))
  | OtherValue => Published false (Some "Failed to publish post.")
  end.

End Actions.

(** ** The settings cache ([settings.ts]) *)

Module Settings.
Import JS.
Local Open Scope string_scope.

(** The nested objects of a [Settings] value.  A key is absent ([None]) or
    holds a string, as the type declares. *)
Record WordPress : Type := {
  siteUrl : option string;
  username : option string;
  password : option string
}.

Record Gemini : Type := {
  apiKey : option string;
  geminiModelName : option string
}.

Record Agent : Type := {
  agentPostFrequency : option string;
  agentCategories : option string;
  agentContentGuidelines : option string;
  agentBlogTheme : option string
}.

Record Settings : Type := {
  modelName : option string;
  postFrequency : option string;
  categories : option string;
  contentGuidelines : option string;
  blogTheme : option string;
  wordpress : option WordPress;
  gemini : option Gemini;
  agent : option Agent
}.

(** The empty object [{}]. *)
Definition emptySettings : Settings :=
  {| modelName := None; postFrequency := None; categories := None;
     contentGuidelines := None; blogTheme := None;
     wordpress := None; gemini := None; agent := None |}.

(** One key of [{...a, ...b}]: the value of [b] where [b] has the key. *)
Definition spreadKey (a b : option string) : option string :=
  match b with
  | Some v => Some v
  | None => a
  end.

(** [if (x) target = x]: a truthy string is assigned, anything else leaves
    the target as it is. *)
Definition assignIfTruthy (target x : option string) : option string :=
  if truthy x then x else target.

Definition spreadWordPress (a : option WordPress) (b : WordPress) : WordPress :=
  match a with
  | Some a =>
      {| siteUrl := spreadKey (siteUrl a) (siteUrl b);
         username := spreadKey (username a) (username b);
         password := spreadKey (password a) (password b) |}
  | None => b
  end.

Definition spreadGemini (a : option Gemini) (b : Gemini) : Gemini :=
  match a with
  | Some a =>
      {| apiKey := spreadKey (apiKey a) (apiKey b);
         geminiModelName := spreadKey (geminiModelName a) (geminiModelName b) |}
  | None => b
  end.

Definition spreadAgent (a : option Agent) (b : Agent) : Agent :=
  match a with
  | Some a =>
      {| agentPostFrequency := spreadKey (agentPostFrequency a) (agentPostFrequency b);
         agentCategories := spreadKey (agentCategories a) (agentCategories b);
         agentContentGuidelines :=
           spreadKey (agentContentGuidelines a) (agentContentGuidelines b);
         agentBlogTheme := spreadKey (agentBlogTheme a) (agentBlogTheme b) |}
  | None => b
  end.

(** The field of an optional nested object, [undefined] when the object is
    absent. *)
Definition ofGemini (g : option Gemini) (f : Gemini -> option string) : option string :=
  match g with Some g => f g | None => None end.

Definition ofAgent (a : option Agent) (f : Agent -> option string) : option string :=
  match a with Some a => f a | None => None end.

(** [settingsCache || {}] *)
Definition cacheValue (settingsCache : option Settings) : Settings :=
  match settingsCache with Some c => c | None => emptySettings end.

(** [saveSettings]: the new value of [settingsCache]. *)
Definition saveSettings (settings : Settings) (settingsCache : option Settings)
  : option Settings :=
  let existingSettings := cacheValue settingsCache in
  Some
    {| modelName :=
         assignIfTruthy (assignIfTruthy (modelName existingSettings) (modelName settings))
           (ofGemini (gemini settings) geminiModelName);
       postFrequency :=
         assignIfTruthy
           (assignIfTruthy (postFrequency existingSettings) (postFrequency settings))
           (ofAgent (agent settings) agentPostFrequency);
       categories :=
         assignIfTruthy (assignIfTruthy (categories existingSettings) (categories settings))
           (ofAgent (agent settings) agentCategories);
       contentGuidelines :=
         assignIfTruthy
           (assignIfTruthy (contentGuidelines existingSettings) (contentGuidelines settings))
           (ofAgent (agent settings) agentContentGuidelines);
       blogTheme :=
         assignIfTruthy (assignIfTruthy (blogTheme existingSettings) (blogTheme settings))
           (ofAgent (agent settings) agentBlogTheme);
       wordpress :=
         match wordpress settings with
         | Some w => Some (spreadWordPress (wordpress existingSettings) w)
         | None => wordpress existingSettings
         end;
       gemini :=
         match gemini settings with
         | Some g => Some (spreadGemini (gemini existingSettings) g)
         | None => gemini existingSettings
         end;
       agent :=
         match agent settings with
         | Some a => Some (spreadAgent (agent existingSettings) a)
         | None => agent existingSettings
         end |}.

(** [getSettings]: the value returned and the cache afterwards. *)
Definition getSettings (settingsCache : option Settings) : Settings * option Settings :=
  match settingsCache with
  | Some c => (c, Some c)
  | None => (emptySettings, Some emptySettings)
  end.

(** A request as the settings page sends it, and a cache holding it. *)
Definition sampleRequest : Settings :=
  {| modelName := Some "gemini-pro"; postFrequency := Some "weekly";
     categories := None; contentGuidelines := None; blogTheme := Some "wordpress";
     wordpress := Some {| siteUrl := Some "https://example.com"; username := Some "admin";
                          password := Some "" |};
     gemini := Some {| apiKey := Some "key"; geminiModelName := Some "gemini-1.5-flash" |};
     agent := None |}.

End Settings.

(** * Facts about the time arithmetic *)

Module ESFacts.
Import ES.

Lemma Day_decomp t : t = Day t * msPerDay + TimeWithinDay t.
Proof.
  unfold Day, TimeWithinDay, msPerDay.
  pose proof (Z.div_mod t 86400000). lia.
Qed.

Lemma TimeWithinDay_range t : 0 <= TimeWithinDay t < msPerDay.
Proof. unfold TimeWithinDay, msPerDay. apply Z.mod_pos_bound. lia. Qed.

Lemma Day_MakeDate d tm : 0 <= tm < msPerDay -> Day (MakeDate d tm) = d.
Proof.
  intros H. unfold Day, MakeDate, msPerDay in *.
  Z.to_euclidean_division_equations. lia.
Qed.

Lemma Day_add_days t k : Day (t + k * msPerDay) = Day t + k.
Proof. unfold Day. apply Z.div_add. unfold msPerDay. lia. Qed.

Lemma TimeWithinDay_add_days t k : TimeWithinDay (t + k * msPerDay) = TimeWithinDay t.
Proof. unfold TimeWithinDay. apply Z.mod_add. unfold msPerDay. lia. Qed.

Lemma DaysInYear_cases y : DaysInYear y = 365 \/ DaysInYear y = 366.
Proof.
  unfold DaysInYear.
  repeat match goal with |- context [if ?b then _ else _] => destruct b end; auto.
Qed.

(** Consecutive years start [DaysInYear] days apart. *)
Lemma DayFromYear_succ y : DayFromYear (y + 1) = DayFromYear y + DaysInYear y.
Proof.
  unfold DayFromYear, DaysInYear.
  destruct (Z.eqb_spec (y mod 4) 0), (Z.eqb_spec (y mod 100) 0), (Z.eqb_spec (y mod 400) 0);
    cbn [negb]; Z.to_euclidean_division_equations; lia.
Qed.

(** [YearFromTime] is the year the day of [t] lies in. *)
Lemma YearFromTime_spec t :
  DayFromYear (YearFromTime t) <= Day t < DayFromYear (YearFromTime t + 1).
Proof.
  unfold YearFromTime.
  set (d := Day t). set (y := 1970 + d * 400 / 146097).
  destruct (Z.ltb_spec d (DayFromYear y)).
  - replace (y - 1 + 1) with y by lia. split; [|lia].
    unfold DayFromYear in *. subst y. Z.to_euclidean_division_equations. lia.
  - destruct (Z.leb_spec (DayFromYear (y + 1)) d).
    + split; [lia|]. unfold DayFromYear in *. subst y.
      Z.to_euclidean_division_equations. lia.
    + lia.
Qed.

Lemma InLeapYear_DaysInYear t : DaysInYear (YearFromTime t) = 365 + InLeapYear t.
Proof.
  unfold InLeapYear.
  destruct (DaysInYear_cases (YearFromTime t)) as [E|E]; rewrite E; reflexivity.
Qed.

Lemma DayWithinYear_range t : 0 <= DayWithinYear t < 365 + InLeapYear t.
Proof.
  unfold DayWithinYear. pose proof (YearFromTime_spec t) as H.
  rewrite DayFromYear_succ, InLeapYear_DaysInYear in H. lia.
Qed.

Lemma MonthFromTime_range t : 0 <= MonthFromTime t <= 11.
Proof.
  unfold MonthFromTime.
  repeat match goal with |- context [if ?b then _ else _] => destruct b end; lia.
Qed.

Lemma daysInMonth_range l m : 0 <= l <= 1 -> 28 <= daysInMonth l m <= 31.
Proof.
  intros Hl. unfold daysInMonth.
  repeat match goal with |- context [match ?x with _ => _ end] => destruct x end; lia.
Qed.

Lemma InLeapYear_range t : 0 <= InLeapYear t <= 1.
Proof. unfold InLeapYear. destruct (_ =? _); lia. Qed.

Lemma MakeDay_in_year y m dt :
  0 <= m <= 11 ->
  MakeDay y m dt = DayFromYear y + daysBeforeMonth (DaysInYear y - 365) m + dt - 1.
Proof.
  intros Hm. unfold MakeDay.
  rewrite (Z.div_small m 12), (Z.mod_small m 12), Z.add_0_r by lia.
  destruct (DaysInYear_cases y) as [E|E]; rewrite E; reflexivity.
Qed.

(** Year, month and date of a time value lead back to its day; a date
    [k] further on is a day [k] further on. *)
Lemma MakeDay_of_time t k :
  MakeDay (YearFromTime t) (MonthFromTime t) (DateFromTime t + k) = Day t + k.
Proof.
  rewrite MakeDay_in_year by apply MonthFromTime_range.
  rewrite InLeapYear_DaysInYear. unfold DateFromTime, DayWithinYear.
  replace (365 + InLeapYear t - 365) with (InLeapYear t) by lia. lia.
Qed.

Ltac month_case :=
  match goal with
  | |- context [daysBeforeMonth _ (?a + 1)] =>
      let v := eval compute in (a + 1) in change (a + 1) with v
  end;
  cbn [daysBeforeMonth daysInMonth] in *; lia.

(** The same date in the following month is one month length later;
    December carries into January of the next year. *)
Lemma MakeDay_next_month t :
  MakeDay (YearFromTime t) (MonthFromTime t + 1) (DateFromTime t)
  = Day t + daysInMonth (InLeapYear t) (MonthFromTime t).
Proof.
  pose proof (MonthFromTime_range t) as Hm.
  pose proof (MakeDay_of_time t 0) as H0.
  rewrite Z.add_0_r, MakeDay_in_year in H0 by assumption.
  destruct (Z.eq_dec (MonthFromTime t) 11) as [E|E].
  - rewrite E in *. unfold MakeDay.
    change ((11 + 1) / 12) with 1. change ((11 + 1) mod 12) with 0.
    rewrite DayFromYear_succ. rewrite InLeapYear_DaysInYear in *.
    cbn [daysBeforeMonth daysInMonth] in *. lia.
  - rewrite MakeDay_in_year by lia. rewrite InLeapYear_DaysInYear in *.
    replace (365 + InLeapYear t - 365) with (InLeapYear t) in * by lia.
    revert Hm H0 E.
    generalize (MonthFromTime t) as m, (InLeapYear t) as l, (DayFromYear (YearFromTime t)) as b.
    intros m l b Hm H0 E.
    assert (Hc : m = 0 \/ m = 1 \/ m = 2 \/ m = 3 \/ m = 4 \/ m = 5 \/
                 m = 6 \/ m = 7 \/ m = 8 \/ m = 9 \/ m = 10) by lia.
    repeat (destruct Hc as [Hc|Hc]; [subst m; month_case|]).
    subst m; month_case.
Qed.

Lemma TimeClip_in_range t : Z.abs t <= maxTime -> TimeClip t = Some t.
Proof.
  intros H. unfold TimeClip. destruct (Z.ltb_spec maxTime (Z.abs t)); [lia|reflexivity].
Qed.

Lemma WeekDay_range t : 0 <= WeekDay t <= 6.
Proof. unfold WeekDay. pose proof (Z.mod_pos_bound (Day t + 4) 7). lia. Qed.

End ESFacts.

(** * Facts about the date methods and the closed form of the calculator *)

Module SchedulerFacts.
Import ES JS Scheduler ESFacts.

Section Zone.
Variable tza : Z.

(** [d.setDate(d.getDate() + k)] moves a valid date by [k] days. *)
Lemma setDate_getDate_add t k :
  setDate tza (Some t) (numAdd (getDate tza (Some t)) (Some k)) = TimeClip (t + k * msPerDay).
Proof.
  cbn [setDate getDate numAdd option_map]. f_equal.
  rewrite MakeDay_of_time. unfold UTC, MakeDate.
  pose proof (Day_decomp (LocalTime tza t)) as H. unfold LocalTime in *. lia.
Qed.

(** [d.setMonth(d.getMonth() + 1)] moves a valid date by the length of its
    month: a day of month the next month lacks rolls over into the month
    after. *)
Lemma setMonth_getMonth_succ t :
  setMonth tza (Some t) (numAdd (getMonth tza (Some t)) (Some 1))
  = TimeClip (t + daysInMonth (InLeapYear (LocalTime tza t)) (MonthFromTime (LocalTime tza t)) * msPerDay).
Proof.
  cbn [setMonth getMonth numAdd option_map]. f_equal.
  rewrite MakeDay_next_month. unfold UTC, MakeDate.
  pose proof (Day_decomp (LocalTime tza t)) as H. unfold LocalTime in *. lia.
Qed.

(** With numeric hour and minute the candidate is today at that time. *)
Lemma candidate_valid now tm h m :
  parseTime tm = (Some h, Some m) ->
  candidate tza now (Some tm) = TimeClip (atDay tza now 0 h m).
Proof.
  intros Hp. unfold candidate. rewrite Hp.
  destruct (String.eqb_spec tm "") as [->|Hne]; [discriminate Hp|].
  cbn [setHours]. unfold atDay. rewrite Z.add_0_r. reflexivity.
Qed.

(** What a well-formed time of day parses to. *)
Lemma validTimeOfDay_inv tm :
  validTimeOfDay tm = true ->
  exists h m, parseTime tm = (Some h, Some m) /\ 0 <= h < 24 /\ 0 <= m < 60 /\ tm <> ""%string.
Proof.
  unfold validTimeOfDay. intros H.
  destruct (String.eqb_spec tm "") as [->|Hne]; [discriminate H|].
  destruct (parseTime tm) as [[h|] [m|]]; try discriminate.
  exists h, m. repeat split; try assumption; lia.
Qed.

(** A position in [days] is a weekday number. *)
Lemma indexOf_days_range x : indexOf days x = -1 \/ 0 <= indexOf days x <= 6.
Proof.
  unfold indexOf, days. cbn [indexOfFrom].
  repeat match goal with |- context [if ?b then _ else _] => destruct b end; cbn; lia.
Qed.

Lemma targetDayOf_range d target : targetDayOf d = Some target -> 0 <= target <= 6.
Proof.
  unfold targetDayOf. destruct d as [dow|]; [|discriminate].
  destruct (String.eqb dow ""); [discriminate|].
  pose proof (indexOf_days_range (toLowerCase dow)) as H.
  destruct (Z.eqb_spec (indexOf days (toLowerCase dow)) (-1)); [discriminate|].
  intros [= <-]. lia.
Qed.

(** The day adjustment always moves forward. *)
Lemma weekStep_range same extra target cur :
  0 <= extra -> 1 <= same -> 1 <= weekStep same extra target cur <= Z.max same (6 + extra).
Proof.
  intros. unfold weekStep. pose proof (Z.mod_pos_bound (target + 7 - cur) 7).
  destruct (Z.eqb_spec ((target + 7 - cur) mod 7) 0); lia.
Qed.

(** [advanceToDay] on a valid date, in closed form. *)
Lemma advanceToDay_closed t dayOfWeek same extra :
  advanceToDay tza (Some t) dayOfWeek same extra
  = match targetDayOf dayOfWeek with
    | Some target => TimeClip (t + weekStep same extra target (localWeekDay tza t) * msPerDay)
    | None => Some t
    end.
Proof.
  unfold advanceToDay, targetDayOf.
  destruct dayOfWeek as [dow|]; [|reflexivity].
  destruct (String.eqb dow ""); [reflexivity|].
  pose proof (indexOf_days_range (toLowerCase dow)) as Hi.
  destruct (Z.eqb_spec (indexOf days (toLowerCase dow)) (-1)) as [E|E]; cbn [negb]; [reflexivity|].
  set (target := indexOf days (toLowerCase dow)) in *.
  pose proof (WeekDay_range (LocalTime tza t)) as Hw.
  cbn [getDay option_map numSub numRem]. change (7 =? 0) with false. cbv iota.
  rewrite Z.rem_mod_nonneg by lia.
  unfold weekStep, localWeekDay.
  set (d := (target + 7 - WeekDay (LocalTime tza t)) mod 7).
  pose proof (Z.mod_pos_bound (target + 7 - WeekDay (LocalTime tza t)) 7 ltac:(lia)) as Hd. fold d in Hd.
  destruct d as [|p|p] eqn:Ed.
  - cbn [Z.eqb]. apply setDate_getDate_add.
  - cbn [Z.eqb]. apply setDate_getDate_add.
  - lia.
Qed.

(** A passed candidate is moved by at least one and at most 32 days. *)
Lemma daysAdded_range c frequency dayOfWeek : 1 <= daysAdded tza c frequency dayOfWeek <= 32.
Proof.
  unfold daysAdded.
  pose proof (daysInMonth_range (InLeapYear (LocalTime tza (c + msPerDay)))
                (MonthFromTime (LocalTime tza (c + msPerDay))) (InLeapYear_range _)).
  pose proof (weekStep_range 7 0 ).
  pose proof (weekStep_range 14 7).
  repeat match goal with |- context [if ?b then _ else _] => destruct b end;
    try lia; destruct (targetDayOf dayOfWeek) as [target|]; try lia.
  - specialize (H0 target (localWeekDay tza (c + msPerDay))). lia.
  - specialize (H1 target (localWeekDay tza (c + msPerDay))). lia.
Qed.

(** A candidate that is still ahead is returned as it is, whatever the
    frequency and the day. *)
Lemma calculateNextRun_future now frequency dayOfWeek time c :
  candidate tza now time = Some c -> now < c ->
  calculateNextRun tza now frequency dayOfWeek time = Normal c.
Proof.
  intros Hc Hlt. unfold calculateNextRun. rewrite Hc. cbn [dateLe].
  destruct (Z.leb_spec c now); [lia|reflexivity].
Qed.

(** A candidate that has passed is moved by [daysAdded] days. *)
Lemma calculateNextRun_past now frequency dayOfWeek time c :
  candidate tza now time = Some c -> c <= now ->
  Z.abs c <= maxTime - 32 * msPerDay ->
  calculateNextRun tza now frequency dayOfWeek time
  = Normal (c + daysAdded tza c frequency dayOfWeek * msPerDay).
Proof.
  intros Hc Hle Hr. unfold calculateNextRun. rewrite Hc. cbn [dateLe].
  destruct (Z.leb_spec c now); [|lia].
  pose proof (daysAdded_range c frequency dayOfWeek) as Hk.
  assert (Hclip : forall k, 1 <= k <= 32 -> TimeClip (c + k * msPerDay) = Some (c + k * msPerDay)).
  { intros k Hk'. apply TimeClip_in_range. unfold msPerDay, maxTime in *. lia. }
  assert (Hshift : forall w, c + msPerDay + w * msPerDay = c + (1 + w) * msPerDay)
    by (intros; ring).
  rewrite setDate_getDate_add, (Hclip 1) by lia.
  unfold daysAdded in *. rewrite Z.mul_1_l in *.
  destruct (strictEq frequency "daily"); [rewrite Z.mul_1_l; reflexivity|].
  destruct (strictEq frequency "weekly").
  { rewrite advanceToDay_closed. destruct (targetDayOf dayOfWeek) as [target|].
    - rewrite Hshift, Hclip by lia. reflexivity.
    - rewrite Z.mul_1_l. reflexivity. }
  destruct (strictEq frequency "biweekly").
  { rewrite advanceToDay_closed. destruct (targetDayOf dayOfWeek) as [target|].
    - rewrite Hshift, Hclip by lia. reflexivity.
    - rewrite Z.mul_1_l. reflexivity. }
  destruct (strictEq frequency "monthly").
  { rewrite setMonth_getMonth_succ.
    rewrite Hshift, Hclip by lia. reflexivity. }
  rewrite Z.mul_1_l. reflexivity.
Qed.
End Zone.

Local Open Scope string_scope.
Local Open Scope Z_scope.

(** A time of day lies within the day. *)
Lemma MakeTime_valid h m : 0 <= h < 24 -> 0 <= m < 60 -> 0 <= MakeTime h m 0 0 < msPerDay.
Proof. unfold MakeTime, msPerHour, msPerMinute, msPerSecond, msPerDay. lia. Qed.

Lemma atDay_shift tza now n h m : atDay tza now n h m = atDay tza now 0 h m + n * msPerDay.
Proof. unfold atDay, UTC, MakeDate. ring. Qed.

(** Today at a time of day is less than a day away from the clock. *)
Lemma atDay_near tza now h m :
  0 <= MakeTime h m 0 0 < msPerDay ->
  now - msPerDay < atDay tza now 0 h m < now + msPerDay.
Proof.
  intros H. unfold atDay, UTC, MakeDate.
  pose proof (Day_decomp (LocalTime tza now)) as Hd.
  pose proof (TimeWithinDay_range (LocalTime tza now)) as Hr.
  unfold LocalTime in *. lia.
Qed.

Lemma localDay_atDay tza now n h m :
  0 <= MakeTime h m 0 0 < msPerDay ->
  localDay tza (atDay tza now n h m) = localDay tza now + n.
Proof.
  intros H. unfold localDay, atDay, LocalTime, UTC.
  replace (MakeDate (Day (now + tza) + n) (MakeTime h m 0 0) - tza + tza)
    with (MakeDate (Day (now + tza) + n) (MakeTime h m 0 0)) by lia.
  apply Day_MakeDate. assumption.
Qed.

(** The candidate of a well-formed time of day, for a clock in range. *)
Lemma candidate_timeOfDay tza now tm :
  validTimeOfDay tm = true -> clockInRange now = true ->
  exists h m, parseTime tm = (Some h, Some m) /\ 0 <= MakeTime h m 0 0 < msPerDay /\
              candidate tza now (Some tm) = Some (atDay tza now 0 h m) /\
              Z.abs (atDay tza now 0 h m) <= maxTime - 32 * msPerDay.
Proof.
  intros Hv Hc. apply validTimeOfDay_inv in Hv as (h & m & Hp & Hh & Hm & Hne).
  exists h, m. pose proof (MakeTime_valid h m Hh Hm) as Ht.
  pose proof (atDay_near tza now h m Ht) as Hn.
  unfold clockInRange in Hc. apply Z.leb_le in Hc.
  assert (Hb : Z.abs (atDay tza now 0 h m) <= maxTime - 32 * msPerDay)
    by (unfold maxTime, msPerDay in *; lia).
  repeat split; try assumption; try lia.
  rewrite (candidate_valid tza now tm h m Hp). apply TimeClip_in_range.
  unfold maxTime, msPerDay in *. lia.
Qed.

(** Whatever the frequency and the day, a well-formed time of day yields a
    timestamp after the clock. *)
Lemma calculateNextRun_after_now tza now frequency dayOfWeek tm :
  validTimeOfDay tm = true -> clockInRange now = true ->
  exists t, calculateNextRun tza now frequency dayOfWeek (Some tm) = Normal t /\ now < t.
Proof.
  intros Hv Hc.
  destruct (candidate_timeOfDay tza now tm Hv Hc) as (h & m & Hp & Ht & Hcand & Hb).
  pose proof (atDay_near tza now h m Ht) as Hn.
  destruct (Z.lt_ge_cases now (atDay tza now 0 h m)) as [Hlt|Hge].
  - exists (atDay tza now 0 h m). split; [|assumption].
    apply calculateNextRun_future; assumption.
  - eexists. split.
    + apply calculateNextRun_past; eassumption.
    + pose proof (daysAdded_range tza (atDay tza now 0 h m) frequency dayOfWeek).
      unfold msPerDay in *. nia.
Qed.

(** When the time has passed, a weekly or biweekly schedule with a valid
    day lands on that weekday. *)
Lemma passed_lands_on_target tza now frequency dayOfWeek tm h m target :
  frequency = "weekly" \/ frequency = "biweekly" ->
  targetDayOf dayOfWeek = Some target ->
  validTimeOfDay tm = true -> parseTime tm = (Some h, Some m) ->
  clockInRange now = true ->
  atDay tza now 0 h m <= now ->
  exists t, calculateNextRun tza now (Some frequency) dayOfWeek (Some tm) = Normal t /\
            localWeekDay tza t = target.
Proof.
  intros Hf Htd Hv Hp Hc Hle.
  destruct (candidate_timeOfDay tza now tm Hv Hc) as (h' & m' & Hp' & Ht & Hcand & Hb).
  rewrite Hp in Hp'. injection Hp' as <- <-.
  eexists. split; [apply calculateNextRun_past; eassumption|].
  pose proof (targetDayOf_range _ _ Htd) as Hr.
  unfold daysAdded. rewrite Htd.
  unfold localWeekDay, WeekDay, weekStep, LocalTime.
  set (c := atDay tza now 0 h m).
  assert (E1 : forall k, Day (c + k * msPerDay + tza) = Day (c + tza) + k).
  { intros k. replace (c + k * msPerDay + tza) with (c + tza + k * msPerDay) by ring.
    apply Day_add_days. }
  assert (E2 : Day (c + msPerDay + tza) = Day (c + tza) + 1).
  { replace (c + msPerDay + tza) with (c + tza + 1 * msPerDay) by ring. apply Day_add_days. }
  destruct Hf as [-> | ->]; cbn [strictEq String.eqb Ascii.eqb Bool.eqb]; rewrite E1, E2;
    generalize (Day (c + tza)) as dc; intros dc;
    destruct (Z.eqb_spec ((target + 7 - (dc + 1 + 4) mod 7) mod 7) 0);
    Z.to_euclidean_division_equations; lia.
Qed.




(** Local time of a date built from local fields. *)
Lemma LocalTime_dateValue tza y mo d h mi :
  LocalTime tza (dateValue tza y mo d h mi) = dateValue 0 y mo d h mi.
Proof. unfold LocalTime, dateValue, UTC. lia. Qed.



(** Without a time the candidate is the clock value. *)
Lemma candidate_no_time tza now time :
  truthy time = false -> candidate tza now time = Some now.
Proof.
  unfold truthy, candidate. destruct time as [tm|]; [|reflexivity].
  destruct (String.eqb tm ""); [reflexivity|discriminate].
Qed.


End SchedulerFacts.

(** * Facts about the store and the effects of a run *)

Module StoreFacts.
Import ES JS Scheduler.
Local Open Scope string_scope.
Local Open Scope Z_scope.

(** Two updaters for the same id compose. *)
Lemma mapId_mapId sid f g prev :
  (forall s, id (g s) = id s) ->
  mapId sid f (mapId sid g prev) = mapId sid (fun s => f (g s)) prev.
Proof.
  intros Hid. unfold mapId. rewrite map_map. apply map_ext. intros s.
  unfold hasId. destruct (String.eqb (id s) sid) eqn:E.
  - rewrite Hid, E. reflexivity.
  - rewrite E. reflexivity.
Qed.

Lemma mapId_ext sid f g prev :
  (forall s, f s = g s) -> mapId sid f prev = mapId sid g prev.
Proof.
  intros H. unfold mapId. apply map_ext. intros s. rewrite H. reflexivity.
Qed.

Lemma existsb_mapId sid sid' g prev :
  (forall s, id (g s) = id s) ->
  existsb (hasId sid') (mapId sid g prev) = existsb (hasId sid') prev.
Proof.
  intros Hid. unfold mapId. induction prev as [|s r IH]; [reflexivity|].
  cbn [map existsb]. rewrite IH. f_equal.
  unfold hasId. destruct (String.eqb (id s) sid); [rewrite Hid|]; reflexivity.
Qed.

(** An updater for an id the store does not hold changes nothing. *)
Lemma mapId_absent sid f prev :
  existsb (hasId sid) prev = false -> mapId sid f prev = prev.
Proof.
  unfold mapId. induction prev as [|s r IH]; [reflexivity|].
  cbn [map existsb]. intros H. apply orb_false_elim in H as [Hs Hr].
  rewrite Hs, IH by assumption. reflexivity.
Qed.

(** A failing run: the first update, then the [catch] block. *)
Lemma run_reaches_catch a gen pub e :
  runFailure gen pub = Some e ->
  generateScheduledContent a gen pub
  = SetSchedules (MarkGenerating (scheduleId a)) :: handleError a e.
Proof.
  unfold runFailure, publishFailure, generateScheduledContent.
  destruct gen as [content cats|e']; [|intros [= ->]; reflexivity].
  destruct pub as [[|] error|e']; [discriminate| |]; intros [= <-]; reflexivity.
Qed.

Section Zone.
Variable tza : Z.

(** A run that completes: the store after its two queued updates. *)
Lemma completed_store now sid freq dow tm res next prev :
  calculateNextRun tza now freq dow (Some tm) = Normal next ->
  applyUpdates tza now [MarkGenerating sid; MarkCompleted sid freq dow tm res] prev
  = Normal (mapId sid
              (fun s => withResult (withNextRun (withLastRun (withStatus s completed) now) next) res)
              prev).
Proof.
  intros Hn. cbn [applyUpdates applyUpdate]. rewrite Hn.
  rewrite existsb_mapId by reflexivity.
  destruct (existsb (hasId sid) prev) eqn:E.
  - rewrite mapId_mapId by reflexivity. reflexivity.
  - rewrite !mapId_absent; try assumption; try reflexivity.
Qed.

(** A run that fails: the store after its two queued updates. *)
Lemma failed_store now sid msg prev :
  applyUpdates tza now [MarkGenerating sid; MarkFailed sid msg] prev
  = Normal (mapId sid (fun s => withResult (withStatus s failed) msg) prev).
Proof.
  cbn [applyUpdates applyUpdate]. rewrite mapId_mapId by reflexivity. reflexivity.
Qed.
End Zone.

(** What the loop of [checkSchedules] computes. *)
Lemma scan_closed now schedules :
  scan now schedules
  = (map (fun s => if isDue now s then pickUp now s else s) schedules,
     map runArgsOf (filter (isDue now) schedules),
     existsb (isDue now) schedules).
Proof.
  induction schedules as [|s rest IH]; [reflexivity|].
  cbn [scan map filter existsb]. rewrite IH.
  destruct (isDue now s); reflexivity.
Qed.

Lemma none_due now schedules :
  existsb (isDue now) schedules = false ->
  map (fun s => if isDue now s then pickUp now s else s) schedules = schedules /\
  filter (isDue now) schedules = [].
Proof.
  induction schedules as [|s rest IH]; [split; reflexivity|].
  cbn [existsb map filter]. intros H. apply orb_false_elim in H as [Hs Hr].
  destruct (IH Hr) as [E1 E2]. rewrite Hs, E1, E2. split; reflexivity.
Qed.

(** The test of the poller, spelled out. *)
Lemma isDue_iff now s :
  isDue now s = true <-> status s = scheduled /\ exists t, nextRun s = Some t /\ t <= now.
Proof.
  unfold isDue. split.
  - intros H. apply andb_true_iff in H as [Hs Hn]. split.
    + destruct (status s); (reflexivity || discriminate).
    + destruct (nextRun s) as [t|]; [|discriminate]. exists t. split; [reflexivity|].
      apply Z.leb_le. exact Hn.
  - intros [Hs (t & Hn & Hle)]. rewrite Hs, Hn. cbn. apply Z.leb_le. exact Hle.
Qed.

Section Zone.
Variable tza : Z.

(** A value passed to [setSchedules] overrides the updaters queued before
    it. *)
Lemma markGenerating_then_set later ids value prev :
  applyUpdates tza later (map MarkGenerating ids ++ [SetTo value])%list prev = Normal value.
Proof.
  revert prev. induction ids as [|i r IH]; intros prev; [reflexivity|].
  cbn [map app applyUpdates applyUpdate]. apply IH.
Qed.

Lemma queued_runs runs tail :
  queued (map Run runs ++ tail)%list
  = (map MarkGenerating (map scheduleId runs) ++ queued tail)%list.
Proof.
  induction runs as [|r rs IH]; [reflexivity|].
  cbn [map app]. unfold queued in *. cbn [flat_map app]. rewrite IH. reflexivity.
Qed.

(** The store after one tick of the poller. *)
Lemma tick_store now later schedules :
  applyUpdates tza later (queued (checkSchedules now schedules)) schedules
  = Normal (map (fun s => if isDue now s then pickUp now s else s) schedules).
Proof.
  unfold checkSchedules. rewrite scan_closed. rewrite queued_runs.
  destruct (existsb (isDue now) schedules) eqn:E.
  - apply markGenerating_then_set.
  - destruct (none_due now schedules E) as [E1 E2]. rewrite E1, E2. reflexivity.
Qed.
End Zone.

(** A due schedule of the store gets a run. *)
Lemma due_is_dispatched now schedules s :
  In s schedules -> isDue now s = true ->
  In (Run (runArgsOf s)) (checkSchedules now schedules).
Proof.
  intros Hin Hd. unfold checkSchedules. rewrite scan_closed.
  apply in_or_app. left. apply in_map, in_map. apply filter_In. split; assumption.
Qed.

Lemma In_mapId sid f prev s :
  In s prev -> id s = sid -> In (f s) (mapId sid f prev).
Proof.
  intros Hin Hid. unfold mapId.
  apply in_map_iff. exists s. split; [|exact Hin].
  unfold hasId. rewrite Hid, String.eqb_refl. reflexivity.
Qed.

(** A store obtained with [mapId] is the store rewritten schedule by
    schedule: each field of the rewritten schedule is read off. *)
Ltac each_schedule :=
  unfold rewritten, mapId;
  split; [apply length_map|];
  let i := fresh "i" in
  let s := fresh "s" in
  let Hn := fresh "Hn" in
  intros i s Hn; rewrite nth_error_map, Hn; cbn [option_map];
  eexists; split; [reflexivity|];
  unfold hasId, sameSettings;
  destruct (String.eqb (id s) _); [cbn; repeat split|reflexivity].

(** The runs a tick starts are those of the due schedules. *)
Lemma runs_of_tick now schedules a :
  In (Run a) (checkSchedules now schedules) <->
  exists s, In s schedules /\ isDue now s = true /\ a = runArgsOf s.
Proof.
  split.
  - unfold checkSchedules. rewrite scan_closed.
    intros H. apply in_app_or in H as [H|H].
    + apply in_map_iff in H as (a' & [= ->] & H).
      apply in_map_iff in H as (s & <- & H). apply filter_In in H as [Hin Hd].
      exists s. repeat split; assumption.
    + destruct (existsb (isDue now) schedules); [|destruct H].
      destruct H as [H|[]]. discriminate H.
  - intros (s & Hin & Hd & ->). apply due_is_dispatched; assumption.
Qed.

End StoreFacts.

(** * The next-run calculator *)

Module Calculator.
Import ES JS Scheduler ESFacts SchedulerFacts.
Local Open Scope string_scope.
Local Open Scope Z_scope.

(** The scenarios of the specification run on the model (time zone UTC;
    2024-01-01 is a Monday). *)

Example parse_nine : parseTime "09:00" = (Some 9, Some 0).
Proof. reflexivity. Qed.

Example parse_no_minutes : parseTime "9" = (Some 9, None).
Proof. reflexivity. Qed.

(** Scenario A: daily at 09:00, asked at 10:00, runs the next morning. *)
Example scenario_A :
  calculateNextRun 0 (dateValue 0 2024 0 1 10 0) (Some "daily") None (Some "09:00")
  = Normal (dateValue 0 2024 0 2 9 0).
Proof. reflexivity. Qed.

(** Scenario B: weekly on Monday at 09:00, asked on a Monday at 10:00, runs
    the following Monday. *)
Example scenario_B :
  calculateNextRun 0 (dateValue 0 2024 0 1 10 0) (Some "weekly") (Some "monday") (Some "09:00")
  = Normal (dateValue 0 2024 0 8 9 0).
Proof. reflexivity. Qed.

(** Weekly on Tuesday, asked on Monday after the time: tomorrow is the
    target day, and the result is the Tuesday of next week. *)
Example weekly_target_tomorrow :
  calculateNextRun 0 (dateValue 0 2024 0 1 10 0) (Some "weekly") (Some "tuesday") (Some "09:00")
  = Normal (dateValue 0 2024 0 9 9 0).
Proof. reflexivity. Qed.

(** Monthly, asked on 2024-01-30 after the time: one day, then one month,
    and "February 31" rolls over to March 2. *)
Example monthly_rollover :
  calculateNextRun 0 (dateValue 0 2024 0 30 8 0) (Some "monthly") None (Some "07:00")
  = Normal (dateValue 0 2024 2 2 7 0).
Proof. reflexivity. Qed.

(** C1.  For every frequency among daily, weekly, biweekly and monthly,
    every [dayOfWeek] argument, every well-formed time of day and every
    clock value [now] in range, [calculateNextRun] returns a timestamp, and
    that timestamp is strictly greater than [now]. *)
Theorem nextRun_strictly_after_now tza now frequency dayOfWeek time :
  In frequency frequencies ->
  validTimeOfDay time = true -> clockInRange now = true ->
  exists t, calculateNextRun tza now (Some frequency) dayOfWeek (Some time) = Normal t /\
            now < t.
Proof. intros _. apply calculateNextRun_after_now. Qed.

Lemma nextRun_strictly_after_now_witness :
  exists t, calculateNextRun 0 (dateValue 0 2024 0 1 10 0)
              (Some "weekly") (Some "monday") (Some "09:00") = Normal t /\
            dateValue 0 2024 0 1 10 0 < t.
Proof.
  apply (nextRun_strictly_after_now 0 (dateValue 0 2024 0 1 10 0) "weekly" (Some "monday") "09:00").
  - simpl. auto.
  - reflexivity.
  - reflexivity.
Defined.

(** C2, at the failing input.  On Wednesday 2024-01-03 at 08:00 a weekly
    schedule for Monday at 09:00 gets 2024-01-03 09:00 as its next run: the
    candidate is still ahead, so the day adjustment is skipped and the
    timestamp falls on a Wednesday (weekday 3), not on the target Monday
    (weekday 1). *)
Theorem weekly_other_day_time_ahead :
  let now := dateValue 0 2024 0 3 8 0 in
  targetDayOf (Some "monday") = Some 1 /\
  calculateNextRun 0 now (Some "weekly") (Some "monday") (Some "09:00")
    = Normal (dateValue 0 2024 0 3 9 0) /\
  localWeekDay 0 (dateValue 0 2024 0 3 9 0) = 3.
Proof. repeat split. Qed.






(** C5, counterexample.  In scenario C (monthly, 2024-01-31 08:00, time
    09:00) the next run is in the month of [now], on the day of [now]: no
    calendar month is added. *)
Lemma monthly_scenario_stays_in_january :
  let now := dateValue 0 2024 0 31 8 0 in
  exists t, calculateNextRun 0 now (Some "monthly") None (Some "09:00") = Normal t /\
            getMonth 0 (Some t) = getMonth 0 (Some now) /\
            localDay 0 t = localDay 0 now.
Proof. eexists. repeat split. Qed.

(** C5, amended.  In scenario C the next run is 2024-01-31 09:00, today at
    the given time: a valid date, strictly after [now], in any time zone
    whose offset is at most a day. *)
Theorem monthly_scenario_today_at_nine tza dayOfWeek :
  Z.abs tza <= msPerDay ->
  let now := dateValue tza 2024 0 31 8 0 in
  let t := dateValue tza 2024 0 31 9 0 in
  calculateNextRun tza now (Some "monthly") dayOfWeek (Some "09:00") = Normal t /\
  now < t /\
  getFullYear tza (Some t) = Some 2024 /\ getMonth tza (Some t) = Some 0 /\
  getDate tza (Some t) = Some 31 /\ getHours tza (Some t) = Some 9 /\
  getMinutes tza (Some t) = Some 0.
Proof.
  intros Hz now t.
  assert (Hn : now = 1706688000000 - tza) by reflexivity.
  assert (Et : t = 1706691600000 - tza) by reflexivity.
  split.
  - apply calculateNextRun_future; [|lia].
    rewrite (candidate_valid tza now "09:00" 9 0) by reflexivity.
    unfold atDay. subst now. rewrite LocalTime_dateValue.
    change (Day (dateValue 0 2024 0 31 8 0) + 0) with 19753.
    change (UTC tza (MakeDate 19753 (MakeTime 9 0 0 0))) with t.
    apply TimeClip_in_range. unfold maxTime, msPerDay in *. lia.
  - split; [lia|].
    cbn [getFullYear getMonth getDate getHours getMinutes option_map].
    subst t. rewrite LocalTime_dateValue. repeat split.
Qed.

Lemma monthly_scenario_today_at_nine_witness :
  let now := dateValue 0 2024 0 31 8 0 in
  let t := dateValue 0 2024 0 31 9 0 in
  calculateNextRun 0 now (Some "monthly") None (Some "09:00") = Normal t /\
  now < t /\
  getFullYear 0 (Some t) = Some 2024 /\ getMonth 0 (Some t) = Some 0 /\
  getDate 0 (Some t) = Some 31 /\ getHours 0 (Some t) = Some 9 /\
  getMinutes 0 (Some t) = Some 0.
Proof.
  apply (monthly_scenario_today_at_nine 0 None). vm_compute. discriminate.
Defined.




End Calculator.

(** * The run executor *)

Module Executor.
Import ES JS Scheduler SchedulerFacts StoreFacts.
Local Open Scope string_scope.
Local Open Scope Z_scope.

(** C6.  When the publish step of a run fails with an error whose message
    contains the marker [term_exists], every schedule of the store with the
    id of the run ends the run with status [completed], a result text
    containing a warning, [lastRun] set to the clock and [nextRun]
    recomputed by [calculateNextRun] (a timestamp after the clock), its
    other fields and every other schedule being left as they were; the
    timer that sets the status back to [scheduled], keeping those values,
    has the delay of the success path. *)
Theorem term_collision_is_soft_success tza now a content cats pub name message prev :
  publishFailure pub = Some (ErrorObject name message) ->
  includes message "term_exists" = true ->
  validTimeOfDay (runTime a) = true -> clockInRange now = true ->
  let es := generateScheduledContent a (Generated content cats) pub in
  let ok := generateScheduledContent a (Generated content cats) (Published true None) in
  exists next warning done back,
    calculateNextRun tza now (runFrequency a) (runDayOfWeek a) (Some (runTime a)) = Normal next /\
    now < next /\
    includes warning "warning" = true /\
    applyUpdates tza now (queued es) prev = Normal done /\
    rewritten (scheduleId a)
      (fun s s' => status s' = completed /\ result s' = Some warning /\
                   lastRun s' = Some now /\ nextRun s' = Some next /\ sameSettings s s')
      prev done /\
    timers es = [(shortDelay, MarkScheduled (scheduleId a))] /\
    timers ok = timers es /\
    (forall later, applyUpdates tza later (map snd (timers es)) done = Normal back) /\
    rewritten (scheduleId a)
      (fun s s' => status s' = scheduled /\ result s' = result s /\
                   lastRun s' = lastRun s /\ nextRun s' = nextRun s /\ sameSettings s s')
      done back.
Proof.
  intros Hf Hm Hv Hc es ok.
  destruct (calculateNextRun_after_now tza now (runFrequency a) (runDayOfWeek a) (runTime a) Hv Hc)
    as (next & Hn & Hlt).
  assert (Hes : es = [ SetSchedules (MarkGenerating (scheduleId a));
                       SetSchedules
                         (MarkCompleted (scheduleId a) (runFrequency a) (runDayOfWeek a)
                            (runTime a)
                            ("Content generated with a warning: " ++ termCollisionNote));
                       Toast "Content generated with warning" termCollisionNote false;
                       SetTimeout shortDelay (MarkScheduled (scheduleId a)) ]).
  { subst es. rewrite (run_reaches_catch a (Generated content cats) pub _ Hf). unfold handleError.
    rewrite Hm. reflexivity. }
  pose (warning := "Content generated with a warning: " ++ termCollisionNote).
  pose (doneOf := fun s =>
          withResult (withNextRun (withLastRun (withStatus s completed) now) next) warning).
  exists next, warning, (mapId (scheduleId a) doneOf prev),
    (mapId (scheduleId a) (fun s => withStatus s scheduled) (mapId (scheduleId a) doneOf prev)).
  split; [exact Hn|]. split; [exact Hlt|]. split; [reflexivity|].
  split; [rewrite Hes; cbn [queued flat_map app]; apply completed_store; exact Hn|].
  split; [each_schedule|].
  split; [rewrite Hes; reflexivity|]. split; [rewrite Hes; reflexivity|].
  split; [intros later; rewrite Hes; reflexivity|].
  each_schedule.
Qed.

Lemma term_collision_is_soft_success_witness :
  let a := runArgsOf sampleSchedule in
  let now := dateValue 0 2024 0 1 10 0 in
  let prev := [sampleSchedule; otherSchedule] in
  let pub := Published false (Some "Failed to publish post: term_exists") in
  let es := generateScheduledContent a (Generated "<p>text</p>" []) pub in
  let ok := generateScheduledContent a (Generated "<p>text</p>" []) (Published true None) in
  exists next warning done back,
    calculateNextRun 0 now (runFrequency a) (runDayOfWeek a) (Some (runTime a)) = Normal next /\
    now < next /\
    includes warning "warning" = true /\
    applyUpdates 0 now (queued es) prev = Normal done /\
    rewritten (scheduleId a)
      (fun s s' => status s' = completed /\ result s' = Some warning /\
                   lastRun s' = Some now /\ nextRun s' = Some next /\ sameSettings s s')
      prev done /\
    timers es = [(shortDelay, MarkScheduled (scheduleId a))] /\
    timers ok = timers es /\
    (forall later, applyUpdates 0 later (map snd (timers es)) done = Normal back) /\
    rewritten (scheduleId a)
      (fun s s' => status s' = scheduled /\ result s' = result s /\
                   lastRun s' = lastRun s /\ nextRun s' = nextRun s /\ sameSettings s s')
      done back.
Proof.
  apply (term_collision_is_soft_success 0 (dateValue 0 2024 0 1 10 0) (runArgsOf sampleSchedule)
           "<p>text</p>" [] (Published false (Some "Failed to publish post: term_exists"))
           "Error" "Failed to publish post: term_exists" [sampleSchedule; otherSchedule]).
  - reflexivity.
  - reflexivity.
  - reflexivity.
  - reflexivity.
Defined.

(** C7.  When a run fails with an error that is not a term collision, the
    schedule gets status [failed] and the error message as its result; the
    timer that sets the status back to [scheduled] has the longer delay;
    [nextRun] is the same before the run, after the failure and after the
    timer, so a schedule whose [nextRun] is not after the clock is due at
    the next tick and the poller starts a run for it. *)
Theorem hard_failure_keeps_nextRun tza now a gen pub e :
  runFailure gen pub = Some e -> isTermCollision e = false ->
  let es := generateScheduledContent a gen pub in
  let sid := scheduleId a in
  let failedOf s := withResult (withStatus s failed) (errorMessageOf e) in
  let retryOf s := withStatus (failedOf s) scheduled in
  (forall prev, applyUpdates tza now (queued es) prev = Normal (mapId sid failedOf prev)) /\
  timers es = [(longDelay, MarkScheduled sid)] /\
  shortDelay < longDelay /\
  (forall later prev,
      applyUpdate tza later (MarkScheduled sid) (mapId sid failedOf prev)
      = Normal (mapId sid retryOf prev)) /\
  (forall s,
      status (failedOf s) = failed /\ result (failedOf s) = Some (errorMessageOf e) /\
      nextRun (failedOf s) = nextRun s /\
      status (retryOf s) = scheduled /\ nextRun (retryOf s) = nextRun s) /\
  (forall prev s t later,
      In s prev -> id s = sid -> nextRun s = Some t -> t <= later ->
      isDue later (retryOf s) = true /\
      In (Run (runArgsOf (retryOf s))) (checkSchedules later (mapId sid retryOf prev))).
Proof.
  intros Hf Hm es sid failedOf retryOf.
  assert (Hes : es = [ SetSchedules (MarkGenerating sid);
                       SetSchedules (MarkFailed sid (errorMessageOf e));
                       Toast "Error generating content" (errorMessageOf e) true;
                       SetTimeout longDelay (MarkScheduled sid) ]).
  { subst es. rewrite (run_reaches_catch a gen pub e Hf). unfold handleError.
    destruct e as [name message|]; [|reflexivity].
    cbn [isTermCollision] in Hm. rewrite Hm. reflexivity. }
  split; [|split; [|split; [|split; [|split]]]].
  - intros prev. rewrite Hes. cbn [queued flat_map app]. apply failed_store.
  - rewrite Hes. reflexivity.
  - reflexivity.
  - intros later prev. cbn [applyUpdate]. rewrite mapId_mapId by reflexivity. reflexivity.
  - intros s. repeat split.
  - intros prev s t later Hin Hid Hn Hle.
    assert (Hd : isDue later (retryOf s) = true).
    { apply isDue_iff. split; [reflexivity|]. exists t. split; [exact Hn|exact Hle]. }
    split; [exact Hd|].
    apply due_is_dispatched; [|exact Hd]. apply In_mapId; assumption.
Qed.

Lemma hard_failure_keeps_nextRun_witness :
  let a := runArgsOf sampleSchedule in
  let e := ErrorObject "Error" "Failed to generate content: quota exceeded" in
  let es := generateScheduledContent a (GenerateThrows e) (Published true None) in
  let sid := scheduleId a in
  let failedOf s := withResult (withStatus s failed) (errorMessageOf e) in
  let retryOf s := withStatus (failedOf s) scheduled in
  (forall prev, applyUpdates 0 1704103200000 (queued es) prev = Normal (mapId sid failedOf prev)) /\
  timers es = [(longDelay, MarkScheduled sid)] /\
  shortDelay < longDelay /\
  (forall later prev,
      applyUpdate 0 later (MarkScheduled sid) (mapId sid failedOf prev)
      = Normal (mapId sid retryOf prev)) /\
  (forall s,
      status (failedOf s) = failed /\ result (failedOf s) = Some (errorMessageOf e) /\
      nextRun (failedOf s) = nextRun s /\
      status (retryOf s) = scheduled /\ nextRun (retryOf s) = nextRun s) /\
  (forall prev s t later,
      In s prev -> id s = sid -> nextRun s = Some t -> t <= later ->
      isDue later (retryOf s) = true /\
      In (Run (runArgsOf (retryOf s))) (checkSchedules later (mapId sid retryOf prev))).
Proof.
  apply (hard_failure_keeps_nextRun 0 1704103200000 (runArgsOf sampleSchedule)
           (GenerateThrows (ErrorObject "Error" "Failed to generate content: quota exceeded"))
           (Published true None)
           (ErrorObject "Error" "Failed to generate content: quota exceeded")).
  - reflexivity.
  - reflexivity.
Defined.

(** C8, at the failing input.  When [generateContentAction] throws an error
    whose message contains [term_exists], the [catch] block takes the
    term-collision path although nothing was published: the schedule ends
    the run with status [completed] and a result saying the post was
    created. *)
Theorem generation_failure_with_marker_completes pub :
  let a := runArgsOf sampleSchedule in
  let now := dateValue 0 2024 0 1 10 0 in
  let gen := GenerateThrows (ErrorObject "Error" "Failed to generate content: term_exists") in
  exists s',
    applyUpdates 0 now (queued (generateScheduledContent a gen pub)) [sampleSchedule]
    = Normal [s'] /\
    status s' = completed /\
    result s' = Some ("Content generated with a warning: " ++ termCollisionNote).
Proof.
  exists (withResult
            (withNextRun
               (withLastRun (withStatus sampleSchedule completed) (dateValue 0 2024 0 1 10 0))
               (dateValue 0 2024 0 8 9 0))
            ("Content generated with a warning: " ++ termCollisionNote)).
  split; [|split; reflexivity].
  vm_compute. reflexivity.
Qed.

End Executor.

(** * The poller *)

Module Poller.
Import ES JS Scheduler StoreFacts.
Local Open Scope string_scope.
Local Open Scope Z_scope.

(** C9.  After one tick of [checkSchedules] at clock [now] the store holds,
    position by position, the schedule picked up (status [in-progress],
    [lastRun] equal to [now], every other field as it was) where the
    schedule was due, and the schedule itself otherwise; a schedule is due
    exactly when its status is [scheduled] and its [nextRun] is present and
    not after [now]; the runs started are those of the due schedules. *)
Theorem tick_picks_up_exactly_the_due tza now later schedules :
  applyUpdates tza later (queued (checkSchedules now schedules)) schedules
  = Normal (map (fun s => if isDue now s then pickUp now s else s) schedules) /\
  (forall s, isDue now s = true <->
             status s = scheduled /\ exists t, nextRun s = Some t /\ t <= now) /\
  (forall s,
      status (pickUp now s) = in_progress /\ lastRun (pickUp now s) = Some now /\
      id (pickUp now s) = id s /\ date (pickUp now s) = date s /\
      time (pickUp now s) = time s /\ topic (pickUp now s) = topic s /\
      frequency (pickUp now s) = frequency s /\ dayOfWeek (pickUp now s) = dayOfWeek s /\
      contentType (pickUp now s) = contentType s /\ wordCount (pickUp now s) = wordCount s /\
      tone (pickUp now s) = tone s /\ audience (pickUp now s) = audience s /\
      autoPublish (pickUp now s) = autoPublish s /\ nextRun (pickUp now s) = nextRun s /\
      result (pickUp now s) = result s) /\
  (forall a, In (Run a) (checkSchedules now schedules) <->
             exists s, In s schedules /\ isDue now s = true /\ a = runArgsOf s).
Proof.
  split; [apply tick_store|]. split; [apply isDue_iff|]. split.
  - intros s. repeat split.
  - intros a. apply runs_of_tick.
Qed.

End Poller.

(** * Further facts: calendar, store and strings *)

Module MoreFacts.
Import ES JS Scheduler Component Actions ESFacts SchedulerFacts StoreFacts.
Local Open Scope string_scope.
Local Open Scope Z_scope.

(** Hour and minute of a time of day placed on a day. *)
Lemma HourFromTime_MakeDate d h m :
  0 <= h < 24 -> 0 <= m < 60 ->
  HourFromTime (MakeDate d (MakeTime h m 0 0)) = h /\
  MinFromTime (MakeDate d (MakeTime h m 0 0)) = m.
Proof.
  intros Hh Hm.
  unfold HourFromTime, MinFromTime, MakeDate, MakeTime, msPerDay, msPerHour, msPerMinute, msPerSecond.
  split; Z.to_euclidean_division_equations; lia.
Qed.

(** Local time of a day-and-time value. *)
Lemma LocalTime_atDay tza now n h m :
  LocalTime tza (atDay tza now n h m) = MakeDate (Day (LocalTime tza now) + n) (MakeTime h m 0 0).
Proof. unfold atDay, LocalTime, UTC. lia. Qed.

(** The result for a well-formed time of day: today at that time, or a
    whole number of days later. *)
Lemma calculateNextRun_atDay tza now frequency dayOfWeek tm h m :
  validTimeOfDay tm = true -> parseTime tm = (Some h, Some m) ->
  clockInRange now = true ->
  exists n,
    calculateNextRun tza now frequency dayOfWeek (Some tm) = Normal (atDay tza now n h m) /\
    (now < atDay tza now 0 h m -> n = 0) /\
    (atDay tza now 0 h m <= now -> n = daysAdded tza (atDay tza now 0 h m) frequency dayOfWeek).
Proof.
  intros Hv Hp Hc.
  destruct (candidate_timeOfDay tza now tm Hv Hc) as (h' & m' & Hp' & Ht & Hcand & Hb).
  rewrite Hp in Hp'. injection Hp' as <- <-.
  destruct (Z.lt_ge_cases now (atDay tza now 0 h m)) as [Hlt|Hge].
  - exists 0. split; [apply calculateNextRun_future; assumption|]. split; [reflexivity|lia].
  - exists (daysAdded tza (atDay tza now 0 h m) frequency dayOfWeek).
    split; [|split; [lia|reflexivity]].
    rewrite (calculateNextRun_past tza now frequency dayOfWeek (Some tm) _ Hcand Hge Hb).
    rewrite (atDay_shift tza now (daysAdded _ _ _ _)). reflexivity.
Qed.

(** From weekday [cur] the day adjustment reaches weekday [target]. *)
Lemma weekStep_onto_target same extra target cur :
  0 <= target <= 6 -> 0 <= cur <= 6 -> same mod 7 = 0 -> extra mod 7 = 0 ->
  (cur + weekStep same extra target cur) mod 7 = target.
Proof.
  intros Ht Hc Hs He. unfold weekStep.
  destruct (Z.eqb_spec ((target + 7 - cur) mod 7) 0);
    Z.to_euclidean_division_equations; lia.
Qed.

(** Lower-casing twice is lower-casing once. *)
Lemma lowerChar_idem c : lowerChar (lowerChar c) = lowerChar c.
Proof.
  destruct c as [[] [] [] [] [] [] [] []]; reflexivity.
Qed.

Lemma toLowerCase_idem s : toLowerCase (toLowerCase s) = toLowerCase s.
Proof.
  induction s as [|c s IH]; [reflexivity|].
  cbn [toLowerCase]. rewrite lowerChar_idem, IH. reflexivity.
Qed.

Lemma toLowerCase_empty s : String.eqb (toLowerCase s) "" = String.eqb s "".
Proof. destruct s; reflexivity. Qed.

(** Later years start on later days. *)
Lemma DayFromYear_mono a b : a <= b -> DayFromYear a <= DayFromYear b.
Proof. intros H. unfold DayFromYear. Z.to_euclidean_division_equations. lia. Qed.

(** The year of a time value is determined by the year bounds of its day. *)
Lemma YearFromTime_unique t y :
  DayFromYear y <= Day t < DayFromYear (y + 1) -> YearFromTime t = y.
Proof.
  intros H. pose proof (YearFromTime_spec t) as Hs.
  destruct (Z.lt_trichotomy (YearFromTime t) y) as [Hlt|[E|Hgt]]; [|exact E|].
  - pose proof (DayFromYear_mono (YearFromTime t + 1) y ltac:(lia)). lia.
  - pose proof (DayFromYear_mono (y + 1) (YearFromTime t) ltac:(lia)). lia.
Qed.

(** The date of a time value lies within its month. *)
Lemma DateFromTime_range t :
  1 <= DateFromTime t <= daysInMonth (InLeapYear t) (MonthFromTime t).
Proof.
  pose proof (DayWithinYear_range t) as Hr. pose proof (InLeapYear_range t) as Hl.
  unfold DateFromTime, MonthFromTime.
  generalize dependent (DayWithinYear t). generalize dependent (InLeapYear t).
  intros l Hl d Hr.
  repeat match goal with
         | |- context [if ?a <? ?b then _ else _] => destruct (Z.ltb_spec a b)
         end; cbn [daysBeforeMonth daysInMonth]; lia.
Qed.

(** Year, month and date of the day [MakeDay] builds from fields in range. *)
Lemma civil_of_day t y m d :
  0 <= m <= 11 -> 1 <= d <= daysInMonth (DaysInYear y - 365) m ->
  Day t = DayFromYear y + daysBeforeMonth (DaysInYear y - 365) m + d - 1 ->
  YearFromTime t = y /\ MonthFromTime t = m /\ DateFromTime t = d.
Proof.
  intros Hm Hd E.
  assert (Hl : exists l, DaysInYear y = 365 + l /\ 0 <= l <= 1)
    by (destruct (DaysInYear_cases y) as [H|H]; [exists 0|exists 1]; lia).
  destruct Hl as (l & El & Hl).
  replace (DaysInYear y - 365) with l in * by lia.
  assert (Hc : m = 0 \/ m = 1 \/ m = 2 \/ m = 3 \/ m = 4 \/ m = 5 \/
               m = 6 \/ m = 7 \/ m = 8 \/ m = 9 \/ m = 10 \/ m = 11) by lia.
  assert (Hy : YearFromTime t = y).
  { apply YearFromTime_unique. rewrite DayFromYear_succ, E, El.
    repeat (destruct Hc as [Hc|Hc]; [subst m; cbn [daysBeforeMonth daysInMonth] in *; lia|]).
    subst m; cbn [daysBeforeMonth daysInMonth] in *; lia. }
  assert (Hleap : InLeapYear t = l).
  { unfold InLeapYear. rewrite Hy, El.
    destruct (Z.eqb_spec (365 + l) 366); lia. }
  assert (Hw : DayWithinYear t = daysBeforeMonth l m + d - 1).
  { unfold DayWithinYear. rewrite Hy. lia. }
  split; [exact Hy|].
  unfold DateFromTime, MonthFromTime. rewrite Hleap, Hw. clear E Hy Hleap Hw El.
  repeat (destruct Hc as [Hc|Hc];
          [subst m; cbn [daysBeforeMonth daysInMonth] in *;
           repeat match goal with
                  | |- context [if ?a <? ?b then _ else _] => destruct (Z.ltb_spec a b)
                  end; cbn [daysBeforeMonth]; split; lia|]).
  subst m; cbn [daysBeforeMonth daysInMonth] in *;
    repeat match goal with
           | |- context [if ?a <? ?b then _ else _] => destruct (Z.ltb_spec a b)
           end; cbn [daysBeforeMonth]; split; lia.
Qed.

(** The day of a time value in terms of its year, month and date. *)
Lemma Day_of_fields t :
  Day t = DayFromYear (YearFromTime t)
          + daysBeforeMonth (InLeapYear t) (MonthFromTime t) + DateFromTime t - 1.
Proof. unfold DateFromTime, DayWithinYear. lia. Qed.

(** A month later, for a date every month has: the same date in the
    following month. *)
Lemma next_month_same_date t :
  DateFromTime t <= 28 ->
  let t' := t + daysInMonth (InLeapYear t) (MonthFromTime t) * msPerDay in
  DateFromTime t' = DateFromTime t /\
  MonthFromTime t' = (MonthFromTime t + 1) mod 12.
Proof.
  intros Hd t'.
  pose proof (MonthFromTime_range t) as Hm.
  pose proof (DateFromTime_range t) as Hr.
  pose proof (InLeapYear_range t) as Hl.
  pose proof (Day_of_fields t) as E.
  pose proof (InLeapYear_DaysInYear t) as El.
  assert (Ed : Day t' = Day t + daysInMonth (InLeapYear t) (MonthFromTime t))
    by apply Day_add_days.
  set (y := YearFromTime t) in *. set (m := MonthFromTime t) in *.
  set (l := InLeapYear t) in *. set (d := DateFromTime t) in *.
  destruct (Z.eq_dec m 11) as [E11|N11].
  - rewrite E11 in *. cbn [daysBeforeMonth daysInMonth] in *.
    destruct (civil_of_day t' (y + 1) 0 d) as (_ & Hm' & Hd').
    + lia.
    + cbn [daysInMonth]. lia.
    + cbn [daysBeforeMonth]. rewrite DayFromYear_succ. lia.
    + rewrite Hm', Hd'. split; reflexivity.
  - destruct (civil_of_day t' y (m + 1) d) as (_ & Hm' & Hd').
    + lia.
    + replace (DaysInYear y - 365) with l by lia.
      pose proof (daysInMonth_range l (m + 1) Hl). lia.
    + replace (DaysInYear y - 365) with l by lia. rewrite Ed, E.
      assert (Hc : m = 0 \/ m = 1 \/ m = 2 \/ m = 3 \/ m = 4 \/ m = 5 \/
                   m = 6 \/ m = 7 \/ m = 8 \/ m = 9 \/ m = 10) by lia.
      clearbody m. clear - Hc.
      repeat (destruct Hc as [Hc|Hc]; [subst m; month_case|]).
      subst m; month_case.
    + rewrite Hm', Hd'. split; [reflexivity|]. rewrite Z.mod_small; lia.
Qed.

(** A schedule the poller picked up is not due again. *)
Lemma pickUp_not_due now later s : isDue later (pickUp now s) = false.
Proof. reflexivity. Qed.

(** The schedules due after a tick are those that were not due at the tick. *)
Lemma filter_after_tick now later schedules :
  filter (isDue later) (map (fun s => if isDue now s then pickUp now s else s) schedules)
  = filter (fun s => negb (isDue now s) && isDue later s) schedules.
Proof.
  induction schedules as [|s r IH]; [reflexivity|].
  cbn [map filter]. rewrite IH. destruct (isDue now s) eqn:E; cbn [negb andb].
  - rewrite pickUp_not_due. reflexivity.
  - reflexivity.
Qed.

(** The three updates of a run, whatever its outcome. *)
Lemma runUpdates_shape a gen pub :
  exists mid,
    runUpdates (generateScheduledContent a gen pub)
    = [MarkGenerating (scheduleId a); mid; MarkScheduled (scheduleId a)] /\
    ((exists res, mid = MarkCompleted (scheduleId a) (runFrequency a) (runDayOfWeek a)
                          (runTime a) res) \/
     (exists msg, mid = MarkFailed (scheduleId a) msg)).
Proof.
  assert (Hh : forall e, exists mid,
             runUpdates (SetSchedules (MarkGenerating (scheduleId a)) :: handleError a e)
             = [MarkGenerating (scheduleId a); mid; MarkScheduled (scheduleId a)] /\
             ((exists res, mid = MarkCompleted (scheduleId a) (runFrequency a) (runDayOfWeek a)
                                   (runTime a) res) \/
              (exists msg, mid = MarkFailed (scheduleId a) msg))).
  { intros e. unfold handleError. destruct e as [name message|].
    - destruct (includes message "term_exists"); eexists; (split; [reflexivity|]); eauto.
    - eexists; (split; [reflexivity|]); eauto. }
  unfold generateScheduledContent.
  destruct gen as [content cats|e]; [|apply Hh].
  destruct pub as [[|] err|e]; [|apply Hh|apply Hh].
  eexists. split; [reflexivity|]. left. eauto.
Qed.




(** The three updates of a run that completes, applied in order. *)
Lemma completed_then_scheduled tza now sid freq dow tm res next prev :
  calculateNextRun tza now freq dow (Some tm) = Normal next ->
  applyUpdates tza now [MarkGenerating sid; MarkCompleted sid freq dow tm res; MarkScheduled sid] prev
  = Normal (mapId sid
              (fun s => withStatus
                          (withResult (withNextRun (withLastRun (withStatus s completed) now) next) res)
                          scheduled)
              prev).
Proof.
  intros Hn. cbn [applyUpdates applyUpdate]. rewrite Hn.
  rewrite existsb_mapId by reflexivity.
  destruct (existsb (hasId sid) prev) eqn:E.
  - rewrite !mapId_mapId by reflexivity. reflexivity.
  - rewrite (mapId_absent sid _ prev E). rewrite !(mapId_absent sid _ prev E). reflexivity.
Qed.

(** The schedule the form builds from a well-formed time of day. *)
Lemma newSchedule_valid tza now data :
  validTimeOfDay (formTime data) = true -> clockInRange now = true ->
  exists new next,
    newSchedule tza now data = Normal new /\
    calculateNextRun tza now (Some (formFrequency data)) (formDayOfWeek data)
      (Some (formTime data)) = Normal next /\
    now < next /\
    id new = "schedule-" ++ decimal now /\ status new = scheduled /\
    nextRun new = Some next /\ lastRun new = None /\ result new = None /\
    topic new = topicOf (formTopicKeywords data) /\ time new = formTime data /\
    frequency new = Some (formFrequency data) /\ dayOfWeek new = formDayOfWeek data.
Proof.
  intros Hv Hc.
  destruct (calculateNextRun_after_now tza now (Some (formFrequency data)) (formDayOfWeek data)
              (formTime data) Hv Hc) as (next & Hn & Hlt).
  unfold newSchedule. rewrite Hn. eexists. exists next.
  split; [reflexivity|]. repeat split; assumption.
Qed.

(** An invalid candidate makes the calculator throw. *)
Lemma calculateNextRun_invalid_candidate tza now frequency dayOfWeek time :
  candidate tza now time = None ->
  calculateNextRun tza now frequency dayOfWeek time
  = Throw (ErrorObject "RangeError" "Invalid time value").
Proof. intros H. unfold calculateNextRun. rewrite H. reflexivity. Qed.

(** Removing an id the list does not hold keeps the list. *)
Lemma filter_keep_all (sid : string) l :
  existsb (hasId sid) l = false ->
  filter (fun s => negb (String.eqb (id s) sid)) l = l.
Proof.
  induction l as [|s r IH]; [reflexivity|].
  cbn [existsb filter]. intros H. apply orb_false_elim in H as [Hs Hr].
  unfold hasId in Hs. rewrite Hs. cbn [negb]. rewrite (IH Hr). reflexivity.
Qed.

Lemma append_empty_r s : s ++ "" = s.
Proof. induction s as [|c s IH]; [reflexivity|]. cbn. rewrite IH. reflexivity. Qed.

Lemma append_assoc' a b c : (a ++ b) ++ c = a ++ (b ++ c).
Proof. induction a as [|x a IH]; [reflexivity|]. cbn. rewrite IH. reflexivity. Qed.

Lemma rev_string_acc acc s : rev_string acc s = rev_string "" s ++ acc.
Proof.
  revert acc. induction s as [|c s IH]; intros acc; [reflexivity|].
  cbn [rev_string]. rewrite (IH (String c acc)), (IH (String c "")).
  rewrite append_assoc'. reflexivity.
Qed.

(** What [trimStart] leaves does not begin with white space. *)
Lemma trimStart_head s c r : trimStart s = String c r -> isWhiteSpace c = false.
Proof.
  induction s as [|x s IH]; cbn [trimStart]; [discriminate|].
  destruct (isWhiteSpace x) eqn:E; [exact IH|]. intros [= <- _]. exact E.
Qed.

Lemma trimStart_snoc x c :
  isWhiteSpace c = false -> trimStart (x ++ String c "") = trimStart x ++ String c "".
Proof.
  intros Hc. induction x as [|a x IH]; cbn [append trimStart]; [rewrite Hc; reflexivity|].
  destruct (isWhiteSpace a); [exact IH|reflexivity].
Qed.

Lemma rev_string_snoc acc y c :
  rev_string acc (y ++ String c "") = String c (rev_string acc y).
Proof.
  revert acc. induction y as [|a y IH]; intros acc; [reflexivity|].
  cbn [append rev_string]. apply IH.
Qed.

(** [trim] keeps the first character that is not white space. *)
Lemma trim_head s c r : trimStart s = String c r -> exists r', trim s = String c r'.
Proof.
  intros E. unfold trim. rewrite E. cbn [rev_string].
  rewrite (rev_string_acc (String c "") r).
  rewrite (trimStart_snoc _ c (trimStart_head s c r E)).
  rewrite rev_string_snoc. eexists. reflexivity.
Qed.

(** A string that begins with a character no numeric literal begins with
    converts to NaN. *)
Lemma startsNoNumeral_Number s : startsNoNumeral s = true -> Number s = None.
Proof.
  unfold startsNoNumeral. destruct (trimStart s) as [|c r] eqn:E; [discriminate|].
  intros H. destruct (trim_head s c r E) as (r' & Ht). unfold Number. rewrite Ht.
  destruct c as [[] [] [] [] [] [] [] []];
    try (vm_compute in H; discriminate H); destruct r'; reflexivity.
Qed.

(** A time string that cannot be read leaves an invalid candidate. *)
Lemma unreadableTime_candidate tza now tm :
  tm <> "" -> unreadableTime tm = true -> candidate tza now (Some tm) = None.
Proof.
  intros Hne. unfold candidate. destruct (String.eqb_spec tm ""); [contradiction|].
  unfold unreadableTime, parseTime.
  destruct (split ":" tm) as [|h [|m rest]]; [discriminate| |].
  - intros _. cbn [map]. destruct (Number h); reflexivity.
  - intros H. apply orb_true_iff in H as [H|H]; cbn [map];
      rewrite (startsNoNumeral_Number _ H); [reflexivity|].
    destruct (Number h); reflexivity.
Qed.

(** The first piece of a split, with characters already collected. *)
Lemma splitAcc_head sep acc s :
  hd "" (splitAcc sep acc s) = rev_string "" acc ++ hd "" (splitAcc sep "" s).
Proof.
  revert acc. induction s as [|c s IH]; intros acc.
  - cbn. rewrite append_empty_r. reflexivity.
  - cbn [splitAcc]. destruct (Ascii.eqb c sep).
    + cbn. rewrite append_empty_r. reflexivity.
    + rewrite (IH (String c acc)), (IH (String c "")).
      cbn [rev_string]. rewrite (rev_string_acc (String c "") acc).
      rewrite append_assoc'. reflexivity.
Qed.

Lemma firstKeyword_hd s : firstKeyword s = hd "" (split "," s).
Proof. unfold firstKeyword. destruct (split "," s); reflexivity. Qed.

(** The first piece of a split, one character at a time. *)
Lemma split_head_cons sep c r :
  hd "" (split sep (String c r))
  = if Ascii.eqb c sep then "" else String c (hd "" (split sep r)).
Proof.
  unfold split. cbn [splitAcc]. destruct (Ascii.eqb c sep); [reflexivity|].
  rewrite splitAcc_head. reflexivity.
Qed.

(** The first piece holds no separator: its own first piece is itself. *)
Lemma split_head_idem sep s :
  hd "" (split sep (hd "" (split sep s))) = hd "" (split sep s).
Proof.
  induction s as [|c r IH]; [reflexivity|].
  rewrite (split_head_cons sep c r). destruct (Ascii.eqb c sep) eqn:E; [reflexivity|].
  rewrite split_head_cons, E, IH. reflexivity.
Qed.

(** The first keyword of a topic the form built. *)
Lemma firstKeyword_topicOf kw :
  firstKeyword (topicOf kw) = "Content about " ++ firstKeyword kw.
Proof.
  unfold topicOf. rewrite !firstKeyword_hd. cbn [append].
  repeat (rewrite split_head_cons; cbn [Ascii.eqb Bool.eqb]).
  rewrite split_head_idem. reflexivity.
Qed.

(** The prefixes the server actions put before a message neither hide
    nor create the marker. *)
Lemma includes_after_publish_prefix m :
  includes ("Failed to publish post: " ++ m) "term_exists" = includes m "term_exists".
Proof. cbn. reflexivity. Qed.

Lemma includes_after_generate_prefix m :
  includes ("Failed to generate content: " ++ m) "term_exists" = includes m "term_exists".
Proof. cbn. reflexivity. Qed.

(** The keywords a run extracts from a topic the form built. *)
Lemma keywordsOf_topicOf topicKeywords :
  keywordsOf (topicOf topicKeywords) = firstKeyword topicKeywords.
Proof.
  unfold keywordsOf, topicOf. cbn.
  destruct (firstKeyword topicKeywords); reflexivity.
Qed.

(** The calculator reads the day through [toLowerCase]. *)
Lemma calculateNextRun_lowercase_day tza now frequency day time :
  calculateNextRun tza now frequency (Some (toLowerCase day)) time
  = calculateNextRun tza now frequency (Some day) time.
Proof.
  assert (H : forall nr same extra,
             advanceToDay tza nr (Some (toLowerCase day)) same extra
             = advanceToDay tza nr (Some day) same extra).
  { intros nr same extra. unfold advanceToDay.
    rewrite toLowerCase_empty, toLowerCase_idem. reflexivity. }
  unfold calculateNextRun. rewrite !H. reflexivity.
Qed.

End MoreFacts.

Module SettingsFacts.
Import JS Settings.
Local Open Scope string_scope.

(** An assignment guarded by truth never replaces a truthy value by a
    falsy one. *)
Lemma assignIfTruthy_keeps target x :
  truthy target = true -> truthy (assignIfTruthy target x) = true.
Proof. intros H. unfold assignIfTruthy. destruct (truthy x) eqn:E; assumption. Qed.

Lemma spreadKey_idem a b : spreadKey (spreadKey a b) b = spreadKey a b.
Proof. destruct b; reflexivity. Qed.

Lemma spreadKey_self b : spreadKey b b = b.
Proof. destruct b; reflexivity. Qed.

Lemma assignIfTruthy_idem t x y :
  assignIfTruthy (assignIfTruthy (assignIfTruthy (assignIfTruthy t x) y) x) y
  = assignIfTruthy (assignIfTruthy t x) y.
Proof. unfold assignIfTruthy. destruct (truthy y), (truthy x); reflexivity. Qed.

End SettingsFacts.

(** * The calculator, beyond the claims *)

Module CalculatorMore.
Import ES JS Scheduler ESFacts SchedulerFacts MoreFacts.
Local Open Scope string_scope.
Local Open Scope Z_scope.

(** X1.  Whatever the frequency and the day, the next run of a schedule
    with a well-formed time of day is at that local hour and minute, on the
    day of the clock or at most 32 days later. *)
Theorem nextRun_keeps_time_of_day tza now frequency dayOfWeek time h m :
  validTimeOfDay time = true -> parseTime time = (Some h, Some m) ->
  clockInRange now = true ->
  exists t, calculateNextRun tza now frequency dayOfWeek (Some time) = Normal t /\
            getHours tza (Some t) = Some h /\ getMinutes tza (Some t) = Some m /\
            0 <= localDay tza t - localDay tza now <= 32.
Proof.
  intros Hv Hp Hc.
  destruct (calculateNextRun_atDay tza now frequency dayOfWeek time h m Hv Hp Hc) as (n & E & H0 & H1).
  destruct (validTimeOfDay_inv time Hv) as (h' & m' & Hp' & Hh & Hm & _).
  rewrite Hp in Hp'. injection Hp' as <- <-.
  exists (atDay tza now n h m). split; [exact E|].
  cbn [getHours getMinutes option_map]. rewrite LocalTime_atDay.
  destruct (HourFromTime_MakeDate (Day (LocalTime tza now) + n) h m Hh Hm) as [-> ->].
  repeat split.
  - rewrite localDay_atDay by (apply MakeTime_valid; assumption).
    destruct (Z.lt_ge_cases now (atDay tza now 0 h m)) as [Hlt|Hge].
    + rewrite (H0 Hlt). lia.
    + rewrite (H1 Hge). pose proof (daysAdded_range tza (atDay tza now 0 h m) frequency dayOfWeek). lia.
  - rewrite localDay_atDay by (apply MakeTime_valid; assumption).
    destruct (Z.lt_ge_cases now (atDay tza now 0 h m)) as [Hlt|Hge].
    + rewrite (H0 Hlt). lia.
    + rewrite (H1 Hge). pose proof (daysAdded_range tza (atDay tza now 0 h m) frequency dayOfWeek). lia.
Qed.

Lemma nextRun_keeps_time_of_day_witness :
  let now := dateValue 0 2024 0 1 10 0 in
  exists t, calculateNextRun 0 now (Some "monthly") None (Some "09:30") = Normal t /\
            getHours 0 (Some t) = Some 9 /\ getMinutes 0 (Some t) = Some 30 /\
            0 <= localDay 0 t - localDay 0 now <= 32.
Proof.
  apply (nextRun_keeps_time_of_day 0 (dateValue 0 2024 0 1 10 0) (Some "monthly") None
           "09:30" 9 30).
  - reflexivity.
  - reflexivity.
  - reflexivity.
Defined.

(** X2.  In a local zone with a constant offset from UTC, a daily
    schedule with a well-formed time of day runs next after the clock, at
    that local hour and minute: on the calendar day of the clock when the
    time is still ahead, and on the next calendar day when it has
    passed. *)
Theorem daily_runs_today_or_tomorrow tza now dayOfWeek time h m :
  validTimeOfDay time = true -> parseTime time = (Some h, Some m) ->
  clockInRange now = true ->
  exists t, calculateNextRun tza now (Some "daily") dayOfWeek (Some time) = Normal t /\
            now < t /\
            getHours tza (Some t) = Some h /\ getMinutes tza (Some t) = Some m /\
            (now < atDay tza now 0 h m -> localDay tza t = localDay tza now) /\
            (atDay tza now 0 h m <= now -> localDay tza t = localDay tza now + 1).
Proof.
  intros Hv Hp Hc.
  destruct (validTimeOfDay_inv time Hv) as (h' & m' & Hp' & Hh & Hm & _).
  rewrite Hp in Hp'. injection Hp' as <- <-.
  destruct (calculateNextRun_atDay tza now (Some "daily") dayOfWeek time h m Hv Hp Hc)
    as (n & E & H0 & H1).
  pose proof (atDay_near tza now h m (MakeTime_valid h m Hh Hm)) as Hn.
  assert (Hd : atDay tza now 0 h m <= now -> n = 1).
  { intros Hge. rewrite (H1 Hge). unfold daysAdded.
    cbn [strictEq String.eqb Ascii.eqb Bool.eqb]. reflexivity. }
  exists (atDay tza now n h m). split; [exact E|]. split.
  { rewrite (atDay_shift tza now n).
    destruct (Z.lt_ge_cases now (atDay tza now 0 h m)) as [Hlt|Hge].
    - rewrite (H0 Hlt). lia.
    - rewrite (Hd Hge). lia. }
  cbn [getHours getMinutes option_map]. rewrite LocalTime_atDay.
  destruct (HourFromTime_MakeDate (Day (LocalTime tza now) + n) h m Hh Hm) as [-> ->].
  split; [reflexivity|]. split; [reflexivity|].
  rewrite localDay_atDay by (apply MakeTime_valid; assumption).
  split.
  - intros Hlt. rewrite (H0 Hlt). lia.
  - intros Hge. rewrite (Hd Hge). reflexivity.
Qed.

Lemma daily_runs_today_or_tomorrow_witness :
  let now := dateValue 0 2024 0 1 10 0 in
  exists t, calculateNextRun 0 now (Some "daily") None (Some "09:00") = Normal t /\
            now < t /\
            getHours 0 (Some t) = Some 9 /\ getMinutes 0 (Some t) = Some 0 /\
            (now < atDay 0 now 0 9 0 -> localDay 0 t = localDay 0 now) /\
            (atDay 0 now 0 9 0 <= now -> localDay 0 t = localDay 0 now + 1).
Proof.
  apply (daily_runs_today_or_tomorrow 0 (dateValue 0 2024 0 1 10 0) None "09:00" 9 0).
  - reflexivity.
  - reflexivity.
  - reflexivity.
Defined.

(** X3.  When the time of day has passed, a weekly schedule with a valid
    day runs next on that weekday, 2 to 8 days after today (never tomorrow:
    when tomorrow is the target day the run is 8 days away), and a biweekly
    one on that weekday 9 to 15 days after today. *)
Theorem weekly_passed_lands_on_target tza now dayOfWeek time h m target :
  targetDayOf dayOfWeek = Some target ->
  validTimeOfDay time = true -> parseTime time = (Some h, Some m) ->
  clockInRange now = true ->
  atDay tza now 0 h m <= now ->
  exists tw tb,
    calculateNextRun tza now (Some "weekly") dayOfWeek (Some time) = Normal tw /\
    localWeekDay tza tw = target /\
    2 <= localDay tza tw - localDay tza now <= 8 /\
    calculateNextRun tza now (Some "biweekly") dayOfWeek (Some time) = Normal tb /\
    localWeekDay tza tb = target /\
    9 <= localDay tza tb - localDay tza now <= 15.
Proof.
  intros Htd Hv Hp Hc Hle.
  destruct (candidate_timeOfDay tza now time Hv Hc) as (h' & m' & Hp' & Ht & Hcand & Hb).
  rewrite Hp in Hp'. injection Hp' as <- <-.
  pose proof (targetDayOf_range _ _ Htd) as Hr.
  set (c := atDay tza now 0 h m) in *.
  set (cur := localWeekDay tza (c + msPerDay)).
  assert (Hcur : 0 <= cur <= 6) by apply WeekDay_range.
  assert (Ew : daysAdded tza c (Some "weekly") dayOfWeek = 1 + weekStep 7 0 target cur).
  { unfold daysAdded. rewrite Htd. reflexivity. }
  assert (Eb : daysAdded tza c (Some "biweekly") dayOfWeek = 1 + weekStep 14 7 target cur).
  { unfold daysAdded. rewrite Htd. reflexivity. }
  assert (Hday : forall k, localDay tza (c + k * msPerDay) = localDay tza now + k).
  { intros k. unfold c. rewrite <- atDay_shift. apply localDay_atDay. exact Ht. }
  assert (Hwd : forall k, localWeekDay tza (c + (1 + k) * msPerDay) = (cur + k) mod 7).
  { intros k. unfold cur, localWeekDay, WeekDay.
    replace (LocalTime tza (c + (1 + k) * msPerDay))
      with (LocalTime tza (c + msPerDay) + k * msPerDay) by (unfold LocalTime; ring).
    rewrite Day_add_days. generalize (Day (LocalTime tza (c + msPerDay))). intros d.
    Z.to_euclidean_division_equations; lia. }
  exists (c + daysAdded tza c (Some "weekly") dayOfWeek * msPerDay),
         (c + daysAdded tza c (Some "biweekly") dayOfWeek * msPerDay).
  rewrite !(calculateNextRun_past tza now _ dayOfWeek (Some time) c Hcand Hle Hb).
  rewrite !Hday, Ew, Eb, !Hwd.
  rewrite !weekStep_onto_target by (assumption || reflexivity).
  pose proof (weekStep_range 7 0 target cur ltac:(lia) ltac:(lia)).
  pose proof (weekStep_range 14 7 target cur ltac:(lia) ltac:(lia)).
  assert (8 <= weekStep 14 7 target cur).
  { unfold weekStep. pose proof (Z.mod_pos_bound (target + 7 - cur) 7 ltac:(lia)).
    destruct (Z.eqb_spec ((target + 7 - cur) mod 7) 0); lia. }
  repeat split; lia.
Qed.

Lemma weekly_passed_lands_on_target_witness :
  let now := dateValue 0 2024 0 1 10 0 in
  exists tw tb,
    calculateNextRun 0 now (Some "weekly") (Some "tuesday") (Some "09:00") = Normal tw /\
    localWeekDay 0 tw = 2 /\
    2 <= localDay 0 tw - localDay 0 now <= 8 /\
    calculateNextRun 0 now (Some "biweekly") (Some "tuesday") (Some "09:00") = Normal tb /\
    localWeekDay 0 tb = 2 /\
    9 <= localDay 0 tb - localDay 0 now <= 15.
Proof.
  apply (weekly_passed_lands_on_target 0 (dateValue 0 2024 0 1 10 0) (Some "tuesday")
           "09:00" 9 0 2).
  - reflexivity.
  - reflexivity.
  - reflexivity.
  - reflexivity.
  - vm_compute. discriminate.
Defined.

(** X4.  The day of the week is matched without regard to letter case:
    two spellings with the same lower-case form give the same next run. *)
Theorem dayOfWeek_ignores_case tza now frequency day day' time :
  toLowerCase day = toLowerCase day' ->
  calculateNextRun tza now frequency (Some day) time
  = calculateNextRun tza now frequency (Some day') time.
Proof.
  intros H.
  rewrite <- (calculateNextRun_lowercase_day tza now frequency day time).
  rewrite <- (calculateNextRun_lowercase_day tza now frequency day' time).
  rewrite H. reflexivity.
Qed.

Lemma dayOfWeek_ignores_case_witness :
  calculateNextRun 0 (dateValue 0 2024 0 1 10 0) (Some "weekly") (Some "Friday") (Some "09:00")
  = calculateNextRun 0 (dateValue 0 2024 0 1 10 0) (Some "weekly") (Some "FRIDAY") (Some "09:00").
Proof.
  apply (dayOfWeek_ignores_case 0 (dateValue 0 2024 0 1 10 0) (Some "weekly")
           "Friday" "FRIDAY" (Some "09:00")).
  reflexivity.
Defined.

(** X5.  When the time of day has passed, a monthly schedule runs next 29
    to 32 days after today; when tomorrow's day of the month is at most 28
    the run is on that same day of the month, in the month after
    tomorrow's. *)
Theorem monthly_passed_same_date_next_month tza now dayOfWeek time h m :
  validTimeOfDay time = true -> parseTime time = (Some h, Some m) ->
  clockInRange now = true ->
  atDay tza now 0 h m <= now ->
  let tomorrow := atDay tza now 1 h m in
  exists t,
    calculateNextRun tza now (Some "monthly") dayOfWeek (Some time) = Normal t /\
    29 <= localDay tza t - localDay tza now <= 32 /\
    (forall d mo,
        getDate tza (Some tomorrow) = Some d -> getMonth tza (Some tomorrow) = Some mo ->
        d <= 28 ->
        getDate tza (Some t) = Some d /\ getMonth tza (Some t) = Some ((mo + 1) mod 12)).
Proof.
  intros Hv Hp Hc Hle tomorrow.
  destruct (candidate_timeOfDay tza now time Hv Hc) as (h' & m' & Hp' & Ht & Hcand & Hb).
  rewrite Hp in Hp'. injection Hp' as <- <-.
  set (c := atDay tza now 0 h m) in *.
  assert (Etom : tomorrow = c + msPerDay).
  { unfold tomorrow, c. rewrite (atDay_shift tza now 1). ring. }
  set (l1 := LocalTime tza (c + msPerDay)).
  set (dim := daysInMonth (InLeapYear l1) (MonthFromTime l1)).
  assert (Ek : daysAdded tza c (Some "monthly") dayOfWeek = 1 + dim) by reflexivity.
  pose proof (daysInMonth_range (InLeapYear l1) (MonthFromTime l1) (InLeapYear_range l1)) as Hdim.
  fold dim in Hdim.
  exists (c + (1 + dim) * msPerDay). split; [|split].
  - rewrite (calculateNextRun_past tza now _ dayOfWeek (Some time) c Hcand Hle Hb), Ek.
    reflexivity.
  - unfold c. rewrite <- atDay_shift, localDay_atDay by exact Ht. lia.
  - intros d mo Hd Hmo H28. rewrite Etom in Hd, Hmo.
    cbn [getDate getMonth option_map] in *. fold l1 in Hd, Hmo.
    injection Hd as Hd. injection Hmo as Hmo.
    replace (LocalTime tza (c + (1 + dim) * msPerDay)) with (l1 + dim * msPerDay)
      by (unfold l1, LocalTime; ring).
    destruct (next_month_same_date l1 ltac:(lia)) as [E1 E2]. fold dim in E1, E2.
    rewrite E1, E2, Hd, Hmo. split; reflexivity.
Qed.

Lemma monthly_passed_same_date_next_month_witness :
  let now := dateValue 0 2024 0 15 10 0 in
  let tomorrow := atDay 0 now 1 9 0 in
  exists t,
    calculateNextRun 0 now (Some "monthly") None (Some "09:00") = Normal t /\
    29 <= localDay 0 t - localDay 0 now <= 32 /\
    (forall d mo,
        getDate 0 (Some tomorrow) = Some d -> getMonth 0 (Some tomorrow) = Some mo ->
        d <= 28 ->
        getDate 0 (Some t) = Some d /\ getMonth 0 (Some t) = Some ((mo + 1) mod 12)).
Proof.
  apply (monthly_passed_same_date_next_month 0 (dateValue 0 2024 0 15 10 0) None "09:00" 9 0).
  - reflexivity.
  - reflexivity.
  - reflexivity.
  - vm_compute. discriminate.
Defined.

End CalculatorMore.

(** * Poller and executor together *)

Module Lifecycle.
Import ES JS Scheduler Component ESFacts SchedulerFacts StoreFacts MoreFacts.
Local Open Scope string_scope.
Local Open Scope Z_scope.

(** X6.  A schedule the poller has picked up is not started a second
    time: on the store a tick leaves, a tick at the same clock starts
    nothing, and a tick at any later clock starts exactly the schedules
    that were not due at the first tick and are due now. *)
Theorem picked_up_is_not_dispatched_again tza now clock schedules :
  exists st,
    applyUpdates tza clock (queued (checkSchedules now schedules)) schedules = Normal st /\
    checkSchedules now st = [] /\
    forall later a,
      In (Run a) (checkSchedules later st) <->
      exists s, In s schedules /\ isDue now s = false /\ isDue later s = true /\
                a = runArgsOf s.
Proof.
  eexists. split; [apply tick_store|]. split.
  - unfold checkSchedules. rewrite scan_closed, filter_after_tick.
    assert (E : filter (fun s => negb (isDue now s) && isDue now s) schedules = []).
    { induction schedules as [|s r IH]; [reflexivity|].
      cbn [filter]. destruct (isDue now s); cbn [negb andb]; exact IH. }
    rewrite E.
    assert (E2 : existsb (isDue now)
                   (map (fun s => if isDue now s then pickUp now s else s) schedules) = false).
    { clear E. induction schedules as [|s r IH]; [reflexivity|].
      cbn [map existsb]. rewrite IH. destruct (isDue now s) eqn:Ed.
      - rewrite pickUp_not_due. reflexivity.
      - rewrite Ed. reflexivity. }
    rewrite E2. reflexivity.
  - intros later a. rewrite runs_of_tick. split.
    + intros (s' & Hin & Hd & ->).
      assert (Hf : In s' (filter (isDue later)
                            (map (fun s => if isDue now s then pickUp now s else s) schedules)))
        by (apply filter_In; split; assumption).
      rewrite filter_after_tick in Hf. apply filter_In in Hf as [Hin' Hc].
      apply andb_true_iff in Hc as [Hn Hl]. apply negb_true_iff in Hn.
      exists s'. repeat split; assumption.
    + intros (s & Hin & Hn & Hl & ->).
      exists s. split; [|split; [exact Hl|reflexivity]].
      apply in_map_iff. exists s. rewrite Hn. split; [reflexivity|exact Hin].
Qed.

(** X7.  A run whose generation and publication succeed leaves every
    schedule of its id completed, with the success text of its
    [autoPublish] flag, [lastRun] at the clock and a [nextRun] after the
    clock, the other fields and the other schedules being as they were; the
    timer of the short delay sets the status back to scheduled and keeps
    those values, and from then on the schedule is due exactly from that
    [nextRun] on. *)
Theorem successful_run_reschedules tza now a content cats err prev :
  validTimeOfDay (runTime a) = true -> clockInRange now = true ->
  let es := generateScheduledContent a (Generated content cats) (Published true err) in
  exists next done back,
    calculateNextRun tza now (runFrequency a) (runDayOfWeek a) (Some (runTime a)) = Normal next /\
    now < next /\
    applyUpdates tza now (queued es) prev = Normal done /\
    rewritten (scheduleId a)
      (fun s s' => status s' = completed /\
                   result s' = Some (successText (runAutoPublish a)) /\
                   lastRun s' = Some now /\ nextRun s' = Some next /\ sameSettings s s')
      prev done /\
    timers es = [(shortDelay, MarkScheduled (scheduleId a))] /\
    applyUpdates tza now (runUpdates es) prev = Normal back /\
    rewritten (scheduleId a)
      (fun s s' => status s' = scheduled /\
                   result s' = Some (successText (runAutoPublish a)) /\
                   lastRun s' = Some now /\ nextRun s' = Some next /\ sameSettings s s' /\
                   forall later, isDue later s' = (next <=? later))
      prev back.
Proof.
  intros Hv Hc es.
  destruct (calculateNextRun_after_now tza now (runFrequency a) (runDayOfWeek a) (runTime a) Hv Hc)
    as (next & Hn & Hlt).
  pose (doneOf := fun s =>
          withResult (withNextRun (withLastRun (withStatus s completed) now) next)
            (successText (runAutoPublish a))).
  exists next, (mapId (scheduleId a) doneOf prev),
    (mapId (scheduleId a) (fun s => withStatus (doneOf s) scheduled) prev).
  split; [exact Hn|]. split; [exact Hlt|].
  split; [subst es; cbn [generateScheduledContent queued flat_map app];
          apply completed_store; exact Hn|].
  split; [each_schedule|].
  split; [reflexivity|]. split.
  - subst es. cbn [generateScheduledContent runUpdates queued timers flat_map app map snd].
    apply (completed_then_scheduled tza now _ _ _ _ (successText (runAutoPublish a)) next prev Hn).
  - each_schedule.
Qed.

Lemma successful_run_reschedules_witness :
  let now := dateValue 0 2024 0 1 10 0 in
  let a := runArgsOf sampleSchedule in
  let prev := [sampleSchedule; otherSchedule] in
  let es := generateScheduledContent a (Generated "<p>text</p>" []) (Published true None) in
  exists next done back,
    calculateNextRun 0 now (runFrequency a) (runDayOfWeek a) (Some (runTime a)) = Normal next /\
    now < next /\
    applyUpdates 0 now (queued es) prev = Normal done /\
    rewritten (scheduleId a)
      (fun s s' => status s' = completed /\
                   result s' = Some (successText (runAutoPublish a)) /\
                   lastRun s' = Some now /\ nextRun s' = Some next /\ sameSettings s s')
      prev done /\
    timers es = [(shortDelay, MarkScheduled (scheduleId a))] /\
    applyUpdates 0 now (runUpdates es) prev = Normal back /\
    rewritten (scheduleId a)
      (fun s s' => status s' = scheduled /\
                   result s' = Some (successText (runAutoPublish a)) /\
                   lastRun s' = Some now /\ nextRun s' = Some next /\ sameSettings s s' /\
                   forall later, isDue later s' = (next <=? later))
      prev back.
Proof.
  apply (successful_run_reschedules 0 (dateValue 0 2024 0 1 10 0) (runArgsOf sampleSchedule)
           "<p>text</p>" [] None [sampleSchedule; otherSchedule]).
  - reflexivity.
  - reflexivity.
Defined.



(** X9.  A run whose schedule is no longer in the store (it was removed
    while the run was in flight) changes nothing and throws nothing,
    whatever its outcome and whatever its time string. *)
Theorem run_of_removed_schedule_is_void tza now a gen pub prev :
  existsb (hasId (scheduleId a)) prev = false ->
  applyUpdates tza now (runUpdates (generateScheduledContent a gen pub)) prev = Normal prev.
Proof.
  intros Habs. destruct (runUpdates_shape a gen pub) as (mid & -> & Hmid).
  cbn [applyUpdates applyUpdate]. rewrite (mapId_absent _ _ _ Habs).
  destruct Hmid as [(res & ->)|(msg & ->)]; cbn [applyUpdate].
  - rewrite Habs. rewrite (mapId_absent _ _ _ Habs). reflexivity.
  - rewrite !(mapId_absent _ _ _ Habs). reflexivity.
Qed.

Lemma run_of_removed_schedule_is_void_witness :
  let a := {| scheduleId := "schedule-1704103200000"; runTopic := "Content about wordpress";
              runFrequency := Some "weekly"; runDayOfWeek := Some "monday";
              runTime := "abc"; runAutoPublish := true; runContentType := "blog-post";
              runWordCount := 1500; runTone := "professional"; runAudience := "general" |} in
  calculateNextRun 0 1704103200000 (runFrequency a) (runDayOfWeek a) (Some (runTime a))
  = Throw (ErrorObject "RangeError" "Invalid time value") /\
  applyUpdates 0 1704103200000
    (runUpdates (generateScheduledContent a (Generated "<p>text</p>" []) (Published true None)))
    [otherSchedule]
  = Normal [otherSchedule].
Proof.
  split; [reflexivity|].
  apply (run_of_removed_schedule_is_void 0 1704103200000
           {| scheduleId := "schedule-1704103200000"; runTopic := "Content about wordpress";
              runFrequency := Some "weekly"; runDayOfWeek := Some "monday";
              runTime := "abc"; runAutoPublish := true; runContentType := "blog-post";
              runWordCount := 1500; runTone := "professional"; runAudience := "general" |}
           (Generated "<p>text</p>" []) (Published true None) [otherSchedule]).
  reflexivity.
Defined.

(** X10.  End to end, from an empty store: submitting the form stores one
    schedule, scheduled, never run, with a [nextRun] after the clock; a
    tick before that [nextRun] does nothing; a tick from that [nextRun] on
    starts the run of the schedule and stores it in progress with [lastRun]
    at the tick; and when generation and publication succeed the store ends
    with that one schedule scheduled again, [lastRun] at the clock of the
    run, the success text as its result, and a [nextRun] after that
    clock. *)
Theorem created_schedule_runs_and_is_rescheduled tza t0 t1 t2 data content cats err :
  validTimeOfDay (formTime data) = true ->
  clockInRange t0 = true -> clockInRange t2 = true ->
  let st0 := {| schedules := []; activeSchedule := None; error := None |} in
  exists new next,
    onSubmit tza t0 data true st0
    = {| schedules := [new]; activeSchedule := None; error := None |} /\
    status new = scheduled /\ lastRun new = None /\ result new = None /\
    nextRun new = Some next /\ t0 < next /\
    (t1 < next -> checkSchedules t1 [new] = []) /\
    (next <= t1 ->
     exists picked,
       checkSchedules t1 [new] = [Run (runArgsOf new); SetSchedules (SetTo [picked])] /\
       status picked = in_progress /\ lastRun picked = Some t1 /\
       nextRun picked = Some next /\ sameSettings new picked /\
       exists next2 final,
         t2 < next2 /\
         applyUpdates tza t2
           (runUpdates (generateScheduledContent (runArgsOf new) (Generated content cats)
                          (Published true err)))
           [picked]
         = Normal [final] /\
         status final = scheduled /\ lastRun final = Some t2 /\
         nextRun final = Some next2 /\
         result final = Some (successText (formAutoPublish data)) /\
         sameSettings new final).
Proof.
  intros Hv H0 H2 st0.
  destruct (calculateNextRun_after_now tza t0 (Some (formFrequency data)) (formDayOfWeek data)
              (formTime data) Hv H0) as (next & Hn & Hlt).
  assert (En : exists new, newSchedule tza t0 data = Normal new /\
                           nextRun new = Some next /\ status new = scheduled /\
                           lastRun new = None /\ result new = None /\
                           time new = formTime data /\
                           autoPublish new = Some (formAutoPublish data)).
  { unfold newSchedule. rewrite Hn. eexists. repeat split. }
  destruct En as (new & En & Hnr & Hs & Hlr & Hres & Htm & Ha).
  exists new, next.
  assert (Hdue : forall t, isDue t new = (next <=? t)).
  { intros t. unfold isDue. rewrite Hs, Hnr. reflexivity. }
  split; [unfold onSubmit; rewrite En; reflexivity|].
  split; [exact Hs|]. split; [exact Hlr|]. split; [exact Hres|].
  split; [exact Hnr|]. split; [exact Hlt|]. split.
  - intros Hb. unfold checkSchedules. cbn [scan]. rewrite Hdue.
    destruct (Z.leb_spec next t1); [lia|reflexivity].
  - intros Hb. exists (pickUp t1 new). split.
    { unfold checkSchedules. cbn [scan]. rewrite Hdue.
      destruct (Z.leb_spec next t1); [reflexivity|lia]. }
    split; [reflexivity|]. split; [reflexivity|]. split; [exact Hnr|].
    split; [unfold sameSettings; cbn; repeat (split; [reflexivity|]); reflexivity|].
    assert (Hv' : validTimeOfDay (runTime (runArgsOf new)) = true)
      by (cbn [runArgsOf runTime]; rewrite Htm; exact Hv).
    destruct (calculateNextRun_after_now tza t2 (runFrequency (runArgsOf new))
                (runDayOfWeek (runArgsOf new)) (runTime (runArgsOf new)) Hv' H2)
      as (next2 & Hn2 & Hlt2).
    exists next2. eexists. split; [exact Hlt2|].
    assert (Et : successText (runAutoPublish (runArgsOf new))
                 = successText (formAutoPublish data))
      by (cbn [runArgsOf runAutoPublish]; rewrite Ha; reflexivity).
    rewrite <- Et. split.
    { cbn [generateScheduledContent runUpdates queued timers flat_map app map snd].
      rewrite (completed_then_scheduled tza t2 _ _ _ _
                 (successText (runAutoPublish (runArgsOf new))) next2 _ Hn2).
      unfold mapId. cbn [map]. unfold hasId. cbn [runArgsOf scheduleId].
      replace (id (pickUp t1 new)) with (id new) by reflexivity.
      rewrite String.eqb_refl. reflexivity. }
    split; [reflexivity|]. split; [reflexivity|]. split; [reflexivity|].
    split; [reflexivity|].
    unfold sameSettings. cbn. repeat (split; [reflexivity|]). reflexivity.
Qed.

Lemma created_schedule_runs_and_is_rescheduled_witness :
  let t0 := dateValue 0 2024 0 1 10 0 in
  let t1 := dateValue 0 2024 0 8 9 0 in
  let t2 := dateValue 0 2024 0 8 9 1 in
  exists new next,
    onSubmit 0 t0 sampleForm true {| schedules := []; activeSchedule := None; error := None |}
    = {| schedules := [new]; activeSchedule := None; error := None |} /\
    status new = scheduled /\ lastRun new = None /\ result new = None /\
    nextRun new = Some next /\ t0 < next /\
    (t1 < next -> checkSchedules t1 [new] = []) /\
    (next <= t1 ->
     exists picked,
       checkSchedules t1 [new] = [Run (runArgsOf new); SetSchedules (SetTo [picked])] /\
       status picked = in_progress /\ lastRun picked = Some t1 /\
       nextRun picked = Some next /\ sameSettings new picked /\
       exists next2 final,
         t2 < next2 /\
         applyUpdates 0 t2
           (runUpdates (generateScheduledContent (runArgsOf new) (Generated "<p>text</p>" [])
                          (Published true None)))
           [picked]
         = Normal [final] /\
         status final = scheduled /\ lastRun final = Some t2 /\
         nextRun final = Some next2 /\
         result final = Some (successText (formAutoPublish sampleForm)) /\
         sameSettings new final).
Proof.
  apply (created_schedule_runs_and_is_rescheduled 0 (dateValue 0 2024 0 1 10 0)
           (dateValue 0 2024 0 8 9 0) (dateValue 0 2024 0 8 9 1) sampleForm
           "<p>text</p>" [] None).
  - reflexivity.
  - reflexivity.
  - reflexivity.
Defined.

End Lifecycle.

(** * The form and the table actions *)

Module Form.
Import ES JS Scheduler Component ESFacts SchedulerFacts StoreFacts MoreFacts.
Local Open Scope string_scope.
Local Open Scope Z_scope.

(** X11.  Submitting the form while nothing is being edited appends
    exactly one schedule behind the existing ones: its id is
    [schedule-<clock>], its status is scheduled, it has no [lastRun] and no
    result, and its [nextRun] is after the clock, so it is not due at
    once. *)
Theorem submit_appends_a_scheduled_entry tza now data st :
  truthy (activeSchedule st) = false ->
  validTimeOfDay (formTime data) = true -> clockInRange now = true ->
  exists new next,
    onSubmit tza now data true st
    = {| schedules := (schedules st ++ [new])%list; activeSchedule := None; error := None |} /\
    id new = "schedule-" ++ decimal now /\
    status new = scheduled /\ nextRun new = Some next /\ now < next /\
    isDue now new = false /\
    lastRun new = None /\ result new = None.
Proof.
  intros Ha Hv Hc.
  destruct (newSchedule_valid tza now data Hv Hc)
    as (new & next & En & _ & Hlt & Hid & Hs & Hnr & Hl & Hr & _).
  exists new, next. unfold onSubmit. rewrite En, Ha.
  repeat split; try assumption.
  unfold isDue. rewrite Hs, Hnr. cbn. apply Z.leb_gt. exact Hlt.
Qed.

Lemma submit_appends_a_scheduled_entry_witness :
  exists new next,
    onSubmit 0 (dateValue 0 2024 0 1 10 0) sampleForm true sampleState
    = {| schedules := (schedules sampleState ++ [new])%list;
         activeSchedule := None; error := None |} /\
    id new = "schedule-" ++ decimal (dateValue 0 2024 0 1 10 0) /\
    status new = scheduled /\ nextRun new = Some next /\
    dateValue 0 2024 0 1 10 0 < next /\
    isDue (dateValue 0 2024 0 1 10 0) new = false /\
    lastRun new = None /\ result new = None.
Proof.
  apply (submit_appends_a_scheduled_entry 0 (dateValue 0 2024 0 1 10 0) sampleForm sampleState).
  - reflexivity.
  - reflexivity.
  - reflexivity.
Defined.

(** X12.  Submitting the form while a schedule is being edited puts the
    new schedule in the place of every schedule with the edited id and adds
    nothing, so the number of schedules stays the same and editing ends;
    when no schedule has the edited id the list is left as it was and the
    new schedule is stored nowhere. *)
Theorem submit_while_editing_replaces tza now data st :
  truthy (activeSchedule st) = true ->
  validTimeOfDay (formTime data) = true -> clockInRange now = true ->
  exists new,
    newSchedule tza now data = Normal new /\
    schedules (onSubmit tza now data true st)
    = map (fun s => if strictEq (activeSchedule st) (id s) then new else s) (schedules st) /\
    List.length (schedules (onSubmit tza now data true st)) = List.length (schedules st) /\
    activeSchedule (onSubmit tza now data true st) = None /\
    (forallb (fun s => negb (strictEq (activeSchedule st) (id s))) (schedules st) = true ->
     schedules (onSubmit tza now data true st) = schedules st).
Proof.
  intros Ha Hv Hc.
  destruct (newSchedule_valid tza now data Hv Hc) as (new & next & En & _).
  exists new. split; [exact En|]. unfold onSubmit. rewrite En, Ha.
  cbn [schedules activeSchedule]. split; [reflexivity|]. split; [apply length_map|]. split; [reflexivity|].
  intros Hall. induction (schedules st) as [|s r IH]; [reflexivity|].
  cbn [forallb map] in *. apply andb_true_iff in Hall as [Hs Hr].
  apply negb_true_iff in Hs. rewrite Hs, (IH Hr). reflexivity.
Qed.

Lemma submit_while_editing_replaces_witness :
  exists new,
    newSchedule 0 (dateValue 0 2024 0 1 10 0) sampleForm = Normal new /\
    schedules (onSubmit 0 (dateValue 0 2024 0 1 10 0) sampleForm true editingState) = [new].
Proof.
  assert (Ha : truthy (activeSchedule editingState) = true) by reflexivity.
  assert (Hv : validTimeOfDay (formTime sampleForm) = true) by reflexivity.
  assert (Hc : clockInRange (dateValue 0 2024 0 1 10 0) = true) by reflexivity.
  destruct (submit_while_editing_replaces 0 (dateValue 0 2024 0 1 10 0) sampleForm
              editingState Ha Hv Hc) as (new & En & Es & _).
  exists new. split; [exact En|]. rewrite Es. reflexivity.
Defined.

(** X13.  "Clear All" leaves the edited id in place: submitting the form
    after clearing the list while an edit is open stores nothing, whatever
    the form holds and whether or not the save action succeeds. *)
Theorem submit_after_clear_all_stores_nothing tza now data saved st :
  truthy (activeSchedule st) = true ->
  schedules (onSubmit tza now data saved (clearAll st)) = [].
Proof.
  intros Ha. unfold onSubmit, clearAll. cbn [schedules activeSchedule].
  destruct (newSchedule tza now data); [|reflexivity].
  destruct saved; [|reflexivity]. rewrite Ha. reflexivity.
Qed.

Lemma submit_after_clear_all_stores_nothing_witness :
  schedules (onSubmit 0 (dateValue 0 2024 0 1 10 0) sampleForm true (clearAll editingState))
  = [].
Proof.
  apply (submit_after_clear_all_stores_nothing 0 (dateValue 0 2024 0 1 10 0) sampleForm true
           editingState).
  reflexivity.
Defined.

(** X14.  Submitting a non-empty time string that cannot be read as
    hour:minute (it has no colon, or its hour or minute part begins, after
    white space, with an ASCII character that is not a digit, a sign, a dot
    or the I of [Infinity]) stores nothing: the exception of the calculator
    ends in the [catch] block, the schedules and the edited id stay as they
    were and only the error text is set. *)
Theorem submit_with_unreadable_time_changes_nothing tza now data saved st :
  formTime data <> "" -> unreadableTime (formTime data) = true ->
  onSubmit tza now data saved st
  = {| schedules := schedules st; activeSchedule := activeSchedule st;
       error := Some "Failed to save schedule. Please try again." |}.
Proof.
  intros Hne Hu.
  unfold onSubmit, newSchedule.
  rewrite (calculateNextRun_invalid_candidate tza now _ _ _
             (unreadableTime_candidate tza now _ Hne Hu)).
  reflexivity.
Qed.

Lemma submit_with_unreadable_time_changes_nothing_witness :
  let data :=
    {| formFrequency := "daily"; formDayOfWeek := None; formTime := "9:am";
       formTopicKeywords := "wordpress"; formAutoPublish := false; formDate := "2024-01-01";
       formContentType := "blog-post"; formWordCount := 1500;
       formTone := "professional"; formAudience := "general" |} in
  onSubmit 0 (dateValue 0 2024 0 1 10 0) data true sampleState
  = {| schedules := schedules sampleState; activeSchedule := activeSchedule sampleState;
       error := Some "Failed to save schedule. Please try again." |}.
Proof.
  intros data.
  apply (submit_with_unreadable_time_changes_nothing 0 (dateValue 0 2024 0 1 10 0) data true
           sampleState).
  - discriminate.
  - reflexivity.
Defined.

(** X15.  Removing the schedule a submission has just appended gives back
    the list as it was before, provided no older schedule has the new
    id. *)
Theorem remove_undoes_submit tza now data st :
  truthy (activeSchedule st) = false ->
  validTimeOfDay (formTime data) = true -> clockInRange now = true ->
  existsb (hasId ("schedule-" ++ decimal now)) (schedules st) = false ->
  schedules (removeSchedule ("schedule-" ++ decimal now) (onSubmit tza now data true st))
  = schedules st.
Proof.
  intros Ha Hv Hc Hfresh.
  destruct (newSchedule_valid tza now data Hv Hc) as (new & next & En & _ & _ & Hid & _).
  unfold onSubmit. rewrite En, Ha. unfold removeSchedule. cbn [schedules].
  rewrite filter_app, (filter_keep_all _ _ Hfresh). cbn [filter].
  rewrite Hid, String.eqb_refl. cbn [negb]. apply app_nil_r.
Qed.

Lemma remove_undoes_submit_witness :
  schedules (removeSchedule ("schedule-" ++ decimal (dateValue 0 2024 0 2 10 0))
               (onSubmit 0 (dateValue 0 2024 0 2 10 0) sampleForm true sampleState))
  = schedules sampleState.
Proof.
  apply (remove_undoes_submit 0 (dateValue 0 2024 0 2 10 0) sampleForm sampleState).
  - reflexivity.
  - reflexivity.
  - reflexivity.
  - reflexivity.
Defined.

(** X16.  After [removeSchedule] no schedule has the removed id, the
    schedules that remain are exactly those with another id, and removing
    an id the list does not hold changes nothing. *)
Theorem remove_leaves_no_schedule_with_the_id sid st :
  existsb (hasId sid) (schedules (removeSchedule sid st)) = false /\
  (forall s, In s (schedules (removeSchedule sid st)) <-> In s (schedules st) /\ id s <> sid) /\
  (existsb (hasId sid) (schedules st) = false -> schedules (removeSchedule sid st) = schedules st).
Proof.
  unfold removeSchedule. cbn [schedules]. split; [|split].
  - induction (schedules st) as [|s r IH]; [reflexivity|].
    cbn [filter]. destruct (String.eqb (id s) sid) eqn:E; cbn [negb].
    + exact IH.
    + cbn [existsb]. rewrite IH. unfold hasId. rewrite E. reflexivity.
  - intros s. rewrite filter_In. split.
    + intros [Hin Hn]. split; [exact Hin|]. apply negb_true_iff in Hn.
      apply String.eqb_neq. exact Hn.
    + intros [Hin Hn]. split; [exact Hin|]. apply negb_true_iff. apply String.eqb_neq. exact Hn.
  - apply filter_keep_all.
Qed.

(** X17.  The keywords a run extracts from the topic of a schedule the
    form created are the first comma-separated keyword the user typed; the
    other keywords never reach the generation title. *)
Theorem keywords_recovered_from_topic topicKeywords :
  keywordsOf (topicOf topicKeywords) = firstKeyword topicKeywords /\
  generationTitle (topicOf topicKeywords) = "Auto-generated: " ++ firstKeyword topicKeywords.
Proof.
  split; [apply keywordsOf_topicOf|].
  unfold generationTitle. rewrite keywordsOf_topicOf. reflexivity.
Qed.

(** X18.  Editing a schedule writes its whole topic into the keyword field
    of the form; saving without touching that field therefore stores the
    topic with the prefix twice, and the next run generates for the
    keywords "Content about <keyword>". *)
Theorem edit_and_save_prefixes_the_keywords sid dateText st s kw :
  find (hasId sid) (schedules st) = Some s ->
  topic s = topicOf kw ->
  exists data,
    editSchedule sid dateText st
    = ({| schedules := schedules st; activeSchedule := Some sid; error := error st |},
       Some data) /\
    formTopicKeywords data = topic s /\ formTime data = time s /\
    topicOf (formTopicKeywords data) = "Content about Content about " ++ firstKeyword kw /\
    keywordsOf (topicOf (formTopicKeywords data)) = "Content about " ++ firstKeyword kw.
Proof.
  intros Hf Ht. unfold editSchedule. rewrite Hf. eexists. split; [reflexivity|].
  cbn [formTopicKeywords formTime]. split; [reflexivity|]. split; [reflexivity|].
  rewrite Ht.
  assert (E : topicOf (topicOf kw) = "Content about Content about " ++ firstKeyword kw).
  { unfold topicOf at 1. rewrite firstKeyword_topicOf. reflexivity. }
  split; [exact E|].
  rewrite keywordsOf_topicOf. apply firstKeyword_topicOf.
Qed.

Lemma edit_and_save_prefixes_the_keywords_witness :
  exists data,
    editSchedule (id sampleSchedule) "2024-01-01" sampleState
    = ({| schedules := schedules sampleState; activeSchedule := Some (id sampleSchedule);
          error := error sampleState |},
       Some data) /\
    formTopicKeywords data = topic sampleSchedule /\ formTime data = time sampleSchedule /\
    topicOf (formTopicKeywords data)
    = "Content about Content about " ++ firstKeyword "wordpress" /\
    keywordsOf (topicOf (formTopicKeywords data)) = "Content about " ++ firstKeyword "wordpress".
Proof.
  apply (edit_and_save_prefixes_the_keywords (id sampleSchedule) "2024-01-01" sampleState
           sampleSchedule "wordpress").
  - reflexivity.
  - reflexivity.
Defined.

(** X19.  For a schedule whose frequency and day are present and not
    empty, and whose optional fields are not present with an empty or zero
    value, the manual trigger starts the run with exactly the arguments the
    poller would pass. *)
Theorem manual_run_uses_the_poller_arguments sid st s :
  find (hasId sid) (schedules st) = Some s ->
  fullySpecified s = true ->
  manualArgs s = runArgsOf s /\
  triggerScheduleNow sid st
  = [ Toast "Triggering schedule" "Manually running the scheduled content generation..." false;
      Run (runArgsOf s) ].
Proof.
  intros Hf Hfull.
  assert (E : manualArgs s = runArgsOf s).
  { unfold fullySpecified in Hfull.
    repeat (apply andb_true_iff in Hfull as [Hfull ?]).
    unfold manualArgs, runArgsOf, orString, orNumber, orFalse, truthy, strictEq in *.
    destruct s as [i d t tp stt fr dw ct wc tn au ap lr nr rs]. cbn in *.
    destruct fr as [fr|]; [|discriminate]. destruct dw as [dw|]; [|discriminate].
    destruct (String.eqb fr ""); [discriminate|]. destruct (String.eqb dw ""); [discriminate|].
    destruct ct as [ct|]; [destruct (String.eqb ct ""); [discriminate|]|];
    destruct tn as [tn|]; [destruct (String.eqb tn ""); [discriminate|]| |destruct (String.eqb tn ""); [discriminate|]|];
    destruct au as [au|]; try (destruct (String.eqb au ""); [discriminate|]);
    destruct wc as [wc|]; try (destruct (wc =? 0); [discriminate|]);
    reflexivity. }
  split; [exact E|]. unfold triggerScheduleNow. rewrite Hf, E. reflexivity.
Qed.

Lemma manual_run_uses_the_poller_arguments_witness :
  manualArgs sampleSchedule = runArgsOf sampleSchedule /\
  triggerScheduleNow (id sampleSchedule) sampleState
  = [ Toast "Triggering schedule" "Manually running the scheduled content generation..." false;
      Run (runArgsOf sampleSchedule) ].
Proof.
  apply (manual_run_uses_the_poller_arguments (id sampleSchedule) sampleState sampleSchedule).
  - reflexivity.
  - reflexivity.
Defined.

(** X20.  The manual trigger for an id no schedule has starts no run and
    shows no toast. *)
Theorem manual_run_of_unknown_schedule_does_nothing sid st :
  existsb (hasId sid) (schedules st) = false -> triggerScheduleNow sid st = [].
Proof.
  intros H. unfold triggerScheduleNow.
  destruct (find (hasId sid) (schedules st)) as [s|] eqn:E; [|reflexivity].
  apply find_some in E as [Hin Hid].
  assert (existsb (hasId sid) (schedules st) = true)
    by (apply existsb_exists; exists s; split; assumption).
  congruence.
Qed.

Lemma manual_run_of_unknown_schedule_does_nothing_witness :
  triggerScheduleNow "schedule-0" sampleState = [].
Proof.
  apply (manual_run_of_unknown_schedule_does_nothing "schedule-0" sampleState).
  reflexivity.
Defined.

End Form.

(** * Server actions and the executor *)

Module ServerActions.
Import ES JS Scheduler Component Actions ESFacts SchedulerFacts StoreFacts MoreFacts.
Local Open Scope string_scope.
Local Open Scope Z_scope.

(** X21.  [getTimeAgo] in closed form: "just now" below one minute (also
    for a date in the future), then whole minutes below one hour, whole
    hours below one day, and whole days from there on, each count being the
    difference divided by the unit and rounded down, with the singular
    wording for a count of one. *)
Theorem getTimeAgo_thresholds now date :
  let diff := now - date in
  let unit n one many := if n =? 1 then one else decimal n ++ many in
  getTimeAgo now date
  = if diff <? 60000 then "just now"
    else if diff <? 3600000 then unit (diff / 60000) "1 minute ago" " minutes ago"
    else if diff <? 86400000 then unit (diff / 3600000) "1 hour ago" " hours ago"
    else unit (diff / 86400000) "1 day ago" " days ago".
Proof.
  intros diff unit. unfold getTimeAgo. fold diff.
  assert (E1 : diff / 1000 / 60 = diff / 60000) by (rewrite Z.div_div; lia || reflexivity).
  assert (E2 : diff / 1000 / 60 / 60 = diff / 3600000)
    by (rewrite E1, Z.div_div; lia || reflexivity).
  assert (E3 : diff / 1000 / 60 / 60 / 24 = diff / 86400000)
    by (rewrite E2, Z.div_div; lia || reflexivity).
  rewrite E3, E2, E1.
  destruct (Z.ltb_spec diff 60000) as [H1|H1].
  { destruct (Z.ltb_spec 0 (diff / 86400000)); [Z.to_euclidean_division_equations; lia|].
    destruct (Z.ltb_spec 0 (diff / 3600000)); [Z.to_euclidean_division_equations; lia|].
    destruct (Z.ltb_spec 0 (diff / 60000)); [Z.to_euclidean_division_equations; lia|].
    reflexivity. }
  destruct (Z.ltb_spec diff 3600000) as [H2|H2].
  { destruct (Z.ltb_spec 0 (diff / 86400000)); [Z.to_euclidean_division_equations; lia|].
    destruct (Z.ltb_spec 0 (diff / 3600000)); [Z.to_euclidean_division_equations; lia|].
    destruct (Z.ltb_spec 0 (diff / 60000)); [|Z.to_euclidean_division_equations; lia].
    reflexivity. }
  destruct (Z.ltb_spec diff 86400000) as [H3|H3].
  { destruct (Z.ltb_spec 0 (diff / 86400000)); [Z.to_euclidean_division_equations; lia|].
    destruct (Z.ltb_spec 0 (diff / 3600000)); [|Z.to_euclidean_division_equations; lia].
    reflexivity. }
  destruct (Z.ltb_spec 0 (diff / 86400000)); [|Z.to_euclidean_division_equations; lia].
  reflexivity.
Qed.

(** X22.  An error that [publishPostAction] catches and that carries no
    term-collision marker reaches the schedule as a hard failure: the
    executor sees the message with the prefix of the action, still without
    the marker, and every schedule of the run's id ends the run with status
    [failed] and that message as its result, [lastRun], [nextRun] and the
    other fields being as they were, like every other schedule. *)
Theorem caught_publish_error_reaches_the_schedule tza now a content cats e prev :
  isTermCollision e = false ->
  let msg := match e with
             | ErrorObject _ m => "Failed to publish post: " ++ m
             | OtherValue => "Failed to publish post."
             end in
  runFailure (Generated content cats) (publishCatch e) = Some (ErrorObject "Error" msg) /\
  isTermCollision (ErrorObject "Error" msg) = false /\
  exists st,
    applyUpdates tza now
      (queued (generateScheduledContent a (Generated content cats) (publishCatch e))) prev
    = Normal st /\
    rewritten (scheduleId a)
      (fun s s' => status s' = failed /\ result s' = Some msg /\
                   lastRun s' = lastRun s /\ nextRun s' = nextRun s /\ sameSettings s s')
      prev st.
Proof.
  intros Hc msg.
  assert (Hf : runFailure (Generated content cats) (publishCatch e)
               = Some (ErrorObject "Error" msg)).
  { destruct e as [name m|]; [|reflexivity]. cbn [publishCatch runFailure publishFailure].
    destruct (String.eqb_spec ("Failed to publish post: " ++ m) ""); [discriminate|reflexivity]. }
  assert (Hm : isTermCollision (ErrorObject "Error" msg) = false).
  { destruct e as [name m|]; [|reflexivity]. cbn [isTermCollision] in *.
    subst msg. rewrite includes_after_publish_prefix. exact Hc. }
  split; [exact Hf|]. split; [exact Hm|].
  rewrite (run_reaches_catch a _ _ _ Hf). unfold handleError.
  cbn [isTermCollision] in Hm. rewrite Hm. cbn [queued flat_map app].
  eexists. split; [apply failed_store|]. each_schedule.
Qed.

Lemma caught_publish_error_reaches_the_schedule_witness :
  let a := runArgsOf sampleSchedule in
  let e := ErrorObject "Error" "rest_cannot_create" in
  let msg := "Failed to publish post: rest_cannot_create" in
  let prev := [sampleSchedule; otherSchedule] in
  runFailure (Generated "<p>text</p>" []) (publishCatch e) = Some (ErrorObject "Error" msg) /\
  isTermCollision (ErrorObject "Error" msg) = false /\
  exists st,
    applyUpdates 0 1704103200000
      (queued (generateScheduledContent a (Generated "<p>text</p>" []) (publishCatch e))) prev
    = Normal st /\
    rewritten (scheduleId a)
      (fun s s' => status s' = failed /\ result s' = Some msg /\
                   lastRun s' = lastRun s /\ nextRun s' = nextRun s /\ sameSettings s s')
      prev st.
Proof.
  apply (caught_publish_error_reaches_the_schedule 0 1704103200000 (runArgsOf sampleSchedule)
           "<p>text</p>" [] (ErrorObject "Error" "rest_cannot_create")
           [sampleSchedule; otherSchedule]).
  reflexivity.
Defined.

(** X23.  [generateContentAction] rethrows what it catches with its own
    prefix, and the prefix neither hides nor creates the marker: the
    executor classifies the rethrown error as the error itself would be
    classified, and without the marker every schedule of the run's id ends
    the run with status [failed] and the prefixed message as its result,
    [lastRun], [nextRun] and the other fields being as they were, like
    every other schedule. *)
Theorem caught_generation_error_reaches_the_schedule tza now a pub e prev :
  isTermCollision e = false ->
  let thrown := generateCatch e in
  let msg := match e with
             | ErrorObject _ m => "Failed to generate content: " ++ m
             | OtherValue => "Failed to generate content."
             end in
  (forall e', isTermCollision (generateCatch e') = isTermCollision e') /\
  errorMessageOf thrown = msg /\
  exists st,
    applyUpdates tza now (queued (generateScheduledContent a (GenerateThrows thrown) pub)) prev
    = Normal st /\
    rewritten (scheduleId a)
      (fun s s' => status s' = failed /\ result s' = Some msg /\
                   lastRun s' = lastRun s /\ nextRun s' = nextRun s /\ sameSettings s s')
      prev st.
Proof.
  intros He thrown msg.
  assert (Hall : forall e', isTermCollision (generateCatch e') = isTermCollision e').
  { intros [name m|]; [|reflexivity]. apply includes_after_generate_prefix. }
  assert (Hm : errorMessageOf thrown = msg) by (destruct e; reflexivity).
  split; [exact Hall|]. split; [exact Hm|].
  pose proof (Hall e) as Hc. rewrite He in Hc. fold thrown in Hc.
  rewrite (run_reaches_catch a (GenerateThrows thrown) pub thrown eq_refl).
  rewrite <- Hm. unfold handleError. destruct thrown as [name m|].
  - cbn [isTermCollision] in Hc. rewrite Hc. cbn [queued flat_map app errorMessageOf].
    eexists. split; [apply failed_store|]. each_schedule.
  - cbn [queued flat_map app errorMessageOf].
    eexists. split; [apply failed_store|]. each_schedule.
Qed.

Lemma caught_generation_error_reaches_the_schedule_witness :
  let a := runArgsOf sampleSchedule in
  let e := ErrorObject "Error" "quota exceeded" in
  let thrown := generateCatch e in
  let msg := "Failed to generate content: quota exceeded" in
  let prev := [sampleSchedule; otherSchedule] in
  (forall e', isTermCollision (generateCatch e') = isTermCollision e') /\
  errorMessageOf thrown = msg /\
  exists st,
    applyUpdates 0 1704103200000
      (queued (generateScheduledContent a (GenerateThrows thrown) (Published true None))) prev
    = Normal st /\
    rewritten (scheduleId a)
      (fun s s' => status s' = failed /\ result s' = Some msg /\
                   lastRun s' = lastRun s /\ nextRun s' = nextRun s /\ sameSettings s s')
      prev st.
Proof.
  apply (caught_generation_error_reaches_the_schedule 0 1704103200000
           (runArgsOf sampleSchedule) (Published true None)
           (ErrorObject "Error" "quota exceeded") [sampleSchedule; otherSchedule]).
  reflexivity.
Defined.

End ServerActions.

(** * The settings cache *)

Module SettingsCache.
Import JS Settings SettingsFacts.
Local Open Scope string_scope.

(** X24.  A save never clears or empties a top-level value: a field among
    [modelName], [postFrequency], [categories], [contentGuidelines] and
    [blogTheme] that holds a non-empty string before the save holds one
    after it, whatever the request. *)
Theorem save_never_clears_a_top_level_value settings cache f :
  In f [modelName; postFrequency; categories; contentGuidelines; blogTheme] ->
  truthy (f (cacheValue cache)) = true ->
  exists stored, saveSettings settings cache = Some stored /\ truthy (f stored) = true.
Proof.
  intros Hin Ht. eexists. split; [reflexivity|].
  cbn [In] in Hin.
  destruct Hin as [<-|[<-|[<-|[<-|[<-|[]]]]]];
    cbn [modelName postFrequency categories contentGuidelines blogTheme];
    apply assignIfTruthy_keeps, assignIfTruthy_keeps; exact Ht.
Qed.

Lemma save_never_clears_a_top_level_value_witness :
  exists stored,
    saveSettings emptySettings (Some sampleRequest) = Some stored /\
    truthy (blogTheme stored) = true.
Proof.
  apply (save_never_clears_a_top_level_value emptySettings (Some sampleRequest) blogTheme).
  - simpl. do 4 right. left. reflexivity.
  - reflexivity.
Defined.

(** X25.  Saving the same request twice leaves the cache as saving it
    once. *)
Theorem save_twice_is_save_once settings cache :
  saveSettings settings (saveSettings settings cache) = saveSettings settings cache.
Proof.
  unfold saveSettings. f_equal.
  cbn [cacheValue modelName postFrequency categories contentGuidelines blogTheme
         wordpress gemini agent].
  set (old := cacheValue cache).
  f_equal; try apply assignIfTruthy_idem.
  - destruct (wordpress settings) as [w|]; [|reflexivity]. f_equal.
    destruct w as [a b c]. unfold spreadWordPress.
    destruct (wordpress old) as [o|]; cbn [siteUrl username password];
      rewrite ?spreadKey_idem, ?spreadKey_self; reflexivity.
  - destruct (gemini settings) as [g|]; [|reflexivity]. f_equal.
    destruct g as [a b]. unfold spreadGemini.
    destruct (gemini old) as [o|]; cbn [apiKey geminiModelName];
      rewrite ?spreadKey_idem, ?spreadKey_self; reflexivity.
  - destruct (agent settings) as [g|]; [|reflexivity]. f_equal.
    destruct g as [a b c d]. unfold spreadAgent.
    destruct (agent old) as [o|];
      cbn [agentPostFrequency agentCategories agentContentGuidelines agentBlogTheme];
      rewrite ?spreadKey_idem, ?spreadKey_self; reflexivity.
Qed.

(** X26.  A non-empty model name inside the [gemini] object of a request
    is stored both there and as the top-level [modelName], whatever
    top-level [modelName] the same request carries. *)
Theorem nested_model_name_wins settings cache g v :
  gemini settings = Some g -> geminiModelName g = Some v -> v <> "" ->
  exists stored g',
    saveSettings settings cache = Some stored /\
    modelName stored = Some v /\
    gemini stored = Some g' /\ geminiModelName g' = Some v.
Proof.
  intros Hg Hm Hv. unfold saveSettings. rewrite Hg. eexists. eexists.
  split; [reflexivity|]. cbn [modelName gemini ofGemini]. rewrite Hm.
  split.
  - unfold assignIfTruthy at 1. cbn [truthy].
    destruct (String.eqb_spec v ""); [contradiction|reflexivity].
  - split; [reflexivity|]. unfold spreadGemini.
    destruct (gemini (cacheValue cache)); cbn [geminiModelName]; rewrite ?Hm; reflexivity.
Qed.

Lemma nested_model_name_wins_witness :
  exists stored g',
    saveSettings sampleRequest None = Some stored /\
    modelName stored = Some "gemini-1.5-flash" /\
    gemini stored = Some g' /\ geminiModelName g' = Some "gemini-1.5-flash".
Proof.
  apply (nested_model_name_wins sampleRequest None
           {| apiKey := Some "key"; geminiModelName := Some "gemini-1.5-flash" |}
           "gemini-1.5-flash").
  - reflexivity.
  - reflexivity.
  - discriminate.
Defined.

(** X27.  Empty strings are treated differently at the two levels: an
    absent or empty top-level [modelName] (with no model name in [gemini])
    leaves the stored one as it was, while a key of the [wordpress] object
    that the request carries overwrites the stored key even when its value
    is the empty string. *)
Theorem empty_values_top_level_and_nested settings cache w v :
  truthy (modelName settings) = false ->
  truthy (ofGemini (gemini settings) geminiModelName) = false ->
  wordpress settings = Some w -> password w = Some v ->
  exists stored w',
    saveSettings settings cache = Some stored /\
    modelName stored = modelName (cacheValue cache) /\
    wordpress stored = Some w' /\ password w' = Some v.
Proof.
  intros Hm Hg Hw Hp. unfold saveSettings. rewrite Hw. eexists. eexists.
  split; [reflexivity|]. cbn [modelName wordpress]. split.
  - unfold assignIfTruthy. rewrite Hm, Hg. reflexivity.
  - split; [reflexivity|]. unfold spreadWordPress.
    destruct (wordpress (cacheValue cache)); cbn [password]; rewrite ?Hp; reflexivity.
Qed.

Lemma empty_values_top_level_and_nested_witness :
  let request :=
    {| modelName := Some ""; postFrequency := None; categories := None;
       contentGuidelines := None; blogTheme := None;
       wordpress := Some {| siteUrl := None; username := None; password := Some "" |};
       gemini := None; agent := None |} in
  exists stored w',
    saveSettings request (saveSettings sampleRequest None) = Some stored /\
    modelName stored = modelName (cacheValue (saveSettings sampleRequest None)) /\
    wordpress stored = Some w' /\ password w' = Some "".
Proof.
  intros request.
  apply (empty_values_top_level_and_nested request (saveSettings sampleRequest None)
           {| siteUrl := None; username := None; password := Some "" |} "").
  - reflexivity.
  - reflexivity.
  - reflexivity.
  - reflexivity.
Defined.

End SettingsCache.

(** * Category slugs *)

Module Slug.
Import JS Actions.
Local Open Scope string_scope.

(** A slug character is left alone by every step of [categorySlug]. *)
Lemma slug_char_fixed c :
  isSlugChar c = true -> lowerChar c = c /\ isWhiteSpace c = false.
Proof.
  destruct c as [[] [] [] [] [] [] [] []]; cbn; intros H; try discriminate; split; reflexivity.
Qed.

Lemma keepSlugChars_all s : allChars isSlugChar (keepSlugChars s) = true.
Proof.
  induction s as [|c r IH]; [reflexivity|].
  cbn [keepSlugChars]. destruct (isSlugChar c) eqn:E; [|exact IH].
  cbn [allChars]. rewrite E, IH. reflexivity.
Qed.

(** A string of slug characters is its own slug. *)
Lemma categorySlug_fixed s : allChars isSlugChar s = true -> categorySlug s = s.
Proof.
  unfold categorySlug. induction s as [|c r IH]; [reflexivity|].
  cbn [allChars]. intros H. apply andb_true_iff in H as [Hc Hr].
  destruct (slug_char_fixed c Hc) as [El Ew].
  cbn [toLowerCase hyphenate]. rewrite El, Ew. cbn [keepSlugChars]. rewrite Hc.
  rewrite (IH Hr). reflexivity.
Qed.

(** X28.  The slug [publishPostAction] computes for a category name holds
    only lower-case letters, digits and hyphens, and computing the slug of
    a slug changes nothing. *)
Theorem categorySlug_is_url_safe name :
  allChars isAscii name = true ->
  allChars isSlugChar (categorySlug name) = true /\
  categorySlug (categorySlug name) = categorySlug name.
Proof.
  intros _.
  assert (H : allChars isSlugChar (categorySlug name) = true)
    by (unfold categorySlug; apply keepSlugChars_all).
  split; [exact H|]. apply categorySlug_fixed. exact H.
Qed.

Lemma categorySlug_is_url_safe_witness :
  allChars isSlugChar (categorySlug "Web  Design & SEO") = true /\
  categorySlug (categorySlug "Web  Design & SEO") = categorySlug "Web  Design & SEO".
Proof.
  apply (categorySlug_is_url_safe "Web  Design & SEO"). reflexivity.
Defined.

Example categorySlug_sample : categorySlug "Web  Design & SEO" = "web-design--seo".
Proof. reflexivity. Qed.

End Slug.
